(** * smartscript-builder: the network client layer

    A shallow embedding of the two TypeScript modules that carry the
    client's failure handling:

    - [services/api/websocket.ts]: class [ExecutionWebSocket], the realtime
      execution-update channel (connection lifecycle, message routing,
      reconnection policy);
    - [services/api/client.ts]: [ApiClient.request] and [ApiRequestError],
      the request client (timeout, error classification).

    The JavaScript runtime is single threaded: every handler runs to
    completion, so the channel is a state machine driven by events (socket
    open / message / error / close, timer expiry, calls of the public
    methods).  Everything the class does to the outside world (invoking a
    caller-supplied callback, constructing or closing a socket, arming or
    clearing a timer) is recorded as an [Effect]; a run of the machine
    yields the trace of its effects. *)

From Stdlib Require Import ZArith String List Bool Lia.
From stdpp Require Import base option list gmap strings.

Open Scope string_scope.
Open Scope list_scope.
Open Scope nat_scope.

(** ** JavaScript values

    What [JSON.parse] can return, plus [undefined] (the value of an absent
    property).  Numbers are kept as integers: the only operation the client
    applies to a number is the truthiness test. *)

#[warnings="-register-all"]
Inductive jsval : Type :=
| JUndefined
| JNull
| JBool (b : bool)
| JNum (n : Z)
| JStr (s : string)
| JArr (xs : list jsval)
| JObj (fields : gmap string jsval).

(** [v || w] and [!v] go through ToBoolean. *)
Definition truthy (v : jsval) : bool :=
  match v with
  | JUndefined | JNull => false
  | JBool b => b
  | JNum n => negb (n =? 0)%Z
  | JStr s => negb (String.eqb s "")
  | JArr _ | JObj _ => true
  end.

(** [v || w] *)
Definition js_or (v w : jsval) : jsval := if truthy v then v else w.

(** Property read [v.k] for the keys the client reads ([type], [data],
    [message], [error]), none of which lives on a prototype: reading from
    [null] or [undefined] throws a TypeError ([None]); an object yields its
    own property or [undefined]; any other value yields [undefined]. *)
Definition getProp (v : jsval) (k : string) : option jsval :=
  match v with
  | JUndefined | JNull => None
  | JObj fields => Some (default JUndefined (fields !! k))
  | _ => Some JUndefined
  end.

(** ** The realtime channel: [ExecutionWebSocket] *)

Module ExecutionWebSocket.

(** [type ConnectionStatus = 'connecting' | 'connected' | 'disconnected' | 'error'] *)
Inductive ConnectionStatus := connecting | connected | disconnected | error.

(** A caller-supplied function, known only by its identity. *)
Definition Handler := nat.

(** [interface ExecutionWebSocketCallbacks]: four optional functions. *)
Record ExecutionWebSocketCallbacks := {
  onStepComplete : option Handler;
  onExecutionComplete : option Handler;
  onError : option Handler;
  onConnectionChange : option Handler
}.

(** The object literal [{}]. *)
Definition noCallbacks : ExecutionWebSocketCallbacks :=
  {| onStepComplete := None; onExecutionComplete := None;
     onError := None; onConnectionChange := None |}.

(** The browser side of a [WebSocket] object. *)
Inductive ReadyState := CONNECTING | OPEN | CLOSING | CLOSED.

Record Socket := { url : string; readyState : ReadyState }.

(** A timer armed by [setTimeout]; [pending] until it fires or is cleared. *)
Record Timer := { delay : Z; pending : bool }.

(** What the class does to its environment. *)
Inductive Effect :=
| CallStepComplete (f : Handler) (step : jsval)
| CallExecutionComplete (f : Handler) (result : jsval)
| CallError (f : Handler) (message : jsval)
| CallConnectionChange (f : Handler) (status : ConnectionStatus)
| NewWebSocket (sid : nat) (wsUrl : string)
| WsClose (sid : nat) (code : Z) (reason : string)
| SetTimeout (tid : nat) (ms : Z)
| ClearTimeout (tid : nat).

(** The private fields of the class, followed by the part of the runtime the
    class talks to: every socket constructed so far and every timer armed so
    far, each named by its position in creation order. *)
Record State := {
  ws : option nat;
  executionId : option string;
  callbacks : ExecutionWebSocketCallbacks;
  reconnectAttempts : nat;
  reconnectTimeout : option nat;
  sockets : list Socket;
  timers : list Timer
}.

(** [private maxReconnectAttempts = 3] *)
Definition maxReconnectAttempts : nat := 3.

(** The field initialisers of the class, in a runtime with no socket and no
    timer yet. *)
Definition initial : State :=
  {| ws := None; executionId := None; callbacks := noCallbacks;
     reconnectAttempts := 0; reconnectTimeout := None;
     sockets := []; timers := [] |}.

Definition set_ws (v : option nat) (s : State) : State :=
  {| ws := v; executionId := executionId s; callbacks := callbacks s;
     reconnectAttempts := reconnectAttempts s;
     reconnectTimeout := reconnectTimeout s;
     sockets := sockets s; timers := timers s |}.

Definition set_executionId (v : option string) (s : State) : State :=
  {| ws := ws s; executionId := v; callbacks := callbacks s;
     reconnectAttempts := reconnectAttempts s;
     reconnectTimeout := reconnectTimeout s;
     sockets := sockets s; timers := timers s |}.

Definition set_callbacks (v : ExecutionWebSocketCallbacks) (s : State) : State :=
  {| ws := ws s; executionId := executionId s; callbacks := v;
     reconnectAttempts := reconnectAttempts s;
     reconnectTimeout := reconnectTimeout s;
     sockets := sockets s; timers := timers s |}.

Definition set_reconnectAttempts (v : nat) (s : State) : State :=
  {| ws := ws s; executionId := executionId s; callbacks := callbacks s;
     reconnectAttempts := v;
     reconnectTimeout := reconnectTimeout s;
     sockets := sockets s; timers := timers s |}.

Definition set_reconnectTimeout (v : option nat) (s : State) : State :=
  {| ws := ws s; executionId := executionId s; callbacks := callbacks s;
     reconnectAttempts := reconnectAttempts s;
     reconnectTimeout := v;
     sockets := sockets s; timers := timers s |}.

Definition set_sockets (v : list Socket) (s : State) : State :=
  {| ws := ws s; executionId := executionId s; callbacks := callbacks s;
     reconnectAttempts := reconnectAttempts s;
     reconnectTimeout := reconnectTimeout s;
     sockets := v; timers := timers s |}.

Definition set_timers (v : list Timer) (s : State) : State :=
  {| ws := ws s; executionId := executionId s; callbacks := callbacks s;
     reconnectAttempts := reconnectAttempts s;
     reconnectTimeout := reconnectTimeout s;
     sockets := sockets s; timers := v |}.

(** *** Methods as state transformers that emit effects *)

Definition M (A : Type) : Type := State → A * State * list Effect.

#[global] Instance M_ret : MRet M := λ A a s, (a, s, []).

#[global] Instance M_bind : MBind M := λ A B k m s,
  let '(a, s1, t1) := m s in
  let '(b, s2, t2) := k a s1 in
  (b, s2, t1 ++ t2).

Definition get : M State := λ s, (s, s, []).
Definition modify (f : State → State) : M unit := λ s, ((), f s, []).
Definition emit (e : Effect) : M unit := λ s, ((), s, [e]).

(** The state and the trace a method call leaves behind. *)
Definition exec {A} (m : M A) (s : State) : State * list Effect :=
  ((m s).1.2, (m s).2).

(** *** Runtime primitives *)

(** [callbacks.onConnectionChange?.(status)] and its three siblings: the
    call happens only when the property holds a function.  A callback is
    taken to return normally and not to call back into the channel. *)
Definition notifyConnectionChange (status : ConnectionStatus) : M unit :=
  s ← get;
  match onConnectionChange (callbacks s) with
  | Some f => emit (CallConnectionChange f status)
  | None => mret ()
  end.

Definition notifyError (message : jsval) : M unit :=
  s ← get;
  match onError (callbacks s) with
  | Some f => emit (CallError f message)
  | None => mret ()
  end.

Definition notifyStepComplete (step : jsval) : M unit :=
  s ← get;
  match onStepComplete (callbacks s) with
  | Some f => emit (CallStepComplete f step)
  | None => mret ()
  end.

Definition notifyExecutionComplete (result : jsval) : M unit :=
  s ← get;
  match onExecutionComplete (callbacks s) with
  | Some f => emit (CallExecutionComplete f result)
  | None => mret ()
  end.

(** [new WebSocket(wsUrl)] when the constructor returns: a fresh socket in
    state CONNECTING. *)
Definition newWebSocket (wsUrl : string) : M nat :=
  s ← get;
  let sid := length (sockets s) in
  modify (set_sockets (sockets s ++ [{| url := wsUrl; readyState := CONNECTING |}]));;
  emit (NewWebSocket sid wsUrl);;
  mret sid.

(** What [close()] does to a socket: CONNECTING and OPEN become CLOSING, a
    socket already CLOSING or CLOSED is left alone. *)
Definition closing (k : Socket) : Socket :=
  match readyState k with
  | CONNECTING | OPEN => {| url := url k; readyState := CLOSING |}
  | CLOSING | CLOSED => k
  end.

(** [socket.close(code, reason)] *)
Definition wsClose (sid : nat) (code : Z) (reason : string) : M unit :=
  modify (λ s, set_sockets (alter closing sid (sockets s)) s);;
  emit (WsClose sid code reason).

(** [setTimeout(callback, ms)]; every reconnect timer carries the same
    callback, [() => this.establishConnection()]. *)
Definition setTimeout (ms : Z) : M nat :=
  s ← get;
  let tid := length (timers s) in
  modify (set_timers (timers s ++ [{| delay := ms; pending := true |}]));;
  emit (SetTimeout tid ms);;
  mret tid.

Definition cancelled (t : Timer) : Timer := {| delay := delay t; pending := false |}.

(** [clearTimeout(tid)] *)
Definition clearTimeout (tid : nat) : M unit :=
  modify (λ s, set_timers (alter cancelled tid (timers s)) s);;
  emit (ClearTimeout tid).

(** *** The class *)

(** How a handler or method finished: normally, or by a thrown TypeError. *)
Inductive Completion := Normal | Abrupt.

(** [API_ENDPOINTS.EXECUTION_WS] *)
Definition EXECUTION_WS (id : string) : string := "/ws/execution/" +:+ id.

(** [!!this.executionId]: [null] and the empty string are falsy. *)
Definition truthyId (o : option string) : bool :=
  match o with
  | Some id => negb (String.eqb id "")
  | None => false
  end.

(** [message.type === name] *)
Definition hasType (ty : jsval) (name : string) : bool :=
  match ty with
  | JStr s => String.eqb s name
  | _ => false
  end.

(** [Math.min(1000 * Math.pow(2, attempts), 10000)] *)
Definition backoff (attempts : nat) : Z :=
  Z.min (1000 * 2 ^ Z.of_nat attempts) 10000.

Section Methods.

(** [API_CONFIG.WS_URL], i.e. [import.meta.env.VITE_WS_URL || 'ws://localhost:8000'],
    fixed when the bundle is built. *)
Variable WS_URL : string.

(** Whether [new WebSocket(wsUrl)] throws on this URL. *)
Variable WebSocket_throws : string → bool.

Definition establishConnection : M unit :=
  s ← get;
  if negb (truthyId (executionId s)) then mret ()
  else
    let wsUrl := WS_URL +:+ EXECUTION_WS (default "" (executionId s)) in
    notifyConnectionChange connecting;;
    if WebSocket_throws wsUrl then
      notifyConnectionChange error;;
      notifyError (JStr "Failed to establish WebSocket connection")
    else
      sid ← newWebSocket wsUrl;
      modify (set_ws (Some sid)).

Definition connect (id : string) (cbs : ExecutionWebSocketCallbacks) : M unit :=
  modify (set_executionId (Some id));;
  modify (set_callbacks cbs);;
  modify (set_reconnectAttempts 0);;
  establishConnection.

(** A timer handle is truthy whenever there is one. *)
Definition disconnect : M unit :=
  s ← get;
  match reconnectTimeout s with
  | Some tid => clearTimeout tid;; modify (set_reconnectTimeout None)
  | None => mret ()
  end;;
  match ws s with
  | Some sid => wsClose sid 1000 "Client disconnect";; modify (set_ws None)
  | None => mret ()
  end;;
  modify (set_executionId None);;
  modify (set_callbacks noCallbacks);;
  modify (set_reconnectAttempts maxReconnectAttempts).

(** [handleMessage(message)].  An optional call [f?.(arg)] evaluates [arg]
    only when [f] is a function, so the read [message.data.message] can
    throw only when [onError] is set. *)
Definition handleMessage (message : jsval) : M Completion :=
  match getProp message "type" with
  | None => mret Abrupt
  | Some ty =>
    (* [message] is neither [null] nor [undefined] here *)
    let data := default JUndefined (getProp message "data") in
    if hasType ty "step_complete" then
      notifyStepComplete data;; mret Normal
    else if hasType ty "execution_complete" then
      notifyExecutionComplete data;;
      disconnect;;
      mret Normal
    else if hasType ty "error" then
      s ← get;
      match onError (callbacks s) with
      | None => mret Normal
      | Some f =>
        match getProp data "message" with
        | Some m => emit (CallError f (js_or m (JStr "Unknown error")));; mret Normal
        | None => mret Abrupt
        end
      end
    else mret Normal
  end.

Definition handleDisconnect : M unit :=
  notifyConnectionChange disconnected;;
  s ← get;
  if truthyId (executionId s) && (reconnectAttempts s <? maxReconnectAttempts)%nat then
    modify (set_reconnectAttempts (S (reconnectAttempts s)));;
    tid ← setTimeout (backoff (S (reconnectAttempts s)));
    modify (set_reconnectTimeout (Some tid))
  else mret ().

(** The four handlers [establishConnection] installs on every socket.  They
    close over [this], not over the socket they are installed on. *)
Definition onopen : M unit :=
  modify (set_reconnectAttempts 0);;
  notifyConnectionChange connected.

(** [parsed] is the outcome of [JSON.parse(event.data)], [None] when it
    throws; the [try]/[catch] swallows that and a throw of the router. *)
Definition onmessage (parsed : option jsval) : M unit :=
  match parsed with
  | Some message => handleMessage message;; mret ()
  | None => mret ()
  end.

Definition onclose : M unit := handleDisconnect.

Definition onerror : M unit :=
  notifyConnectionChange error;;
  notifyError (JStr "WebSocket connection error").

End Methods.

(** [get isConnected] *)
Definition isConnected (s : State) : bool :=
  match ws s with
  | Some sid =>
    match sockets s !! sid with
    | Some {| readyState := OPEN |} => true
    | _ => false
    end
  | None => false
  end.

(** [get currentExecutionId] *)
Definition currentExecutionId (s : State) : option string := executionId s.

(** *** The event loop

    One [Event] is one task of the event loop: an event a socket fires, the
    expiry of a timer, or a call of a public method by the caller. *)
Inductive Event :=
| SocketOpen (sid : nat)
| SocketMessage (sid : nat) (parsed : option jsval)
| SocketError (sid : nat)
| SocketClose (sid : nat)
| TimerFired (tid : nat)
| Connect (id : string) (cbs : ExecutionWebSocketCallbacks)
| Disconnect.

Definition socketIn (ok : ReadyState → bool) (sid : nat) (s : State) : bool :=
  match sockets s !! sid with
  | Some k => ok (readyState k)
  | None => false
  end.

(** What the runtime can deliver: [open] only while CONNECTING, [message]
    only while OPEN, [error] and [close] on a socket not yet CLOSED, the
    expiry of a timer still pending.  The caller may call at any time. *)
Definition enabled (e : Event) (s : State) : bool :=
  match e with
  | SocketOpen sid =>
      socketIn (λ r, match r with CONNECTING => true | _ => false end) sid s
  | SocketMessage sid _ =>
      socketIn (λ r, match r with OPEN => true | _ => false end) sid s
  | SocketError sid | SocketClose sid =>
      socketIn (λ r, match r with CLOSED => false | _ => true end) sid s
  | TimerFired tid =>
      match timers s !! tid with
      | Some t => pending t
      | None => false
      end
  | Connect _ _ | Disconnect => true
  end.

Definition setReadyState (sid : nat) (r : ReadyState) : M unit :=
  modify (λ s,
    set_sockets (alter (λ k, {| url := url k; readyState := r |}) sid (sockets s)) s).

Definition expire (tid : nat) : M unit :=
  modify (λ s, set_timers (alter cancelled tid (timers s)) s).

Section Loop.

Variable WS_URL : string.
Variable WebSocket_throws : string → bool.

(** An event that cannot occur in the current state leaves it alone. *)
Definition step (e : Event) : M unit :=
  s ← get;
  if enabled e s then
    match e with
    | SocketOpen sid => setReadyState sid OPEN;; onopen
    | SocketMessage _ parsed => onmessage parsed
    | SocketError _ => onerror
    | SocketClose sid => setReadyState sid CLOSED;; onclose
    | TimerFired tid => expire tid;; establishConnection WS_URL WebSocket_throws
    | Connect id cbs => connect WS_URL WebSocket_throws id cbs
    | Disconnect => disconnect
    end
  else mret ().

Fixpoint run (es : list Event) : M unit :=
  match es with
  | [] => mret ()
  | e :: es => step e;; run es
  end.

(** Every event of the list can occur when its turn comes. *)
Fixpoint feasible (es : list Event) (s : State) : bool :=
  match es with
  | [] => true
  | e :: es => enabled e s && feasible es (exec (step e) s).1
  end.

End Loop.

(** The effects that are invocations of a caller-supplied callback. *)
Definition isCallback (e : Effect) : bool :=
  match e with
  | CallStepComplete _ _ | CallExecutionComplete _ _
  | CallError _ _ | CallConnectionChange _ _ => true
  | _ => false
  end.

Definition isCompletion (e : Effect) : bool :=
  match e with CallExecutionComplete _ _ => true | _ => false end.

Definition isConnect (e : Event) : bool :=
  match e with Connect _ _ => true | _ => false end.

Definition isOpen (e : Event) : bool :=
  match e with SocketOpen _ => true | _ => false end.

(** The caller does not call [connect] during these events. *)
Definition noConnect (es : list Event) : bool :=
  forallb (λ e, negb (isConnect e)) es.

(** No socket reaches OPEN and the caller does not call [connect]. *)
Definition noOpenNoConnect (es : list Event) : bool :=
  forallb (λ e, negb (isOpen e) && negb (isConnect e)) es.

(** The delays of the timers armed in a trace, in order. *)
Definition scheduled (t : list Effect) : list Z :=
  omap (λ e, match e with SetTimeout _ ms => Some ms | _ => None end) t.

(** The sockets constructed in a trace, in order. *)
Definition constructed (t : list Effect) : list nat :=
  omap (λ e, match e with NewWebSocket sid _ => Some sid | _ => None end) t.

End ExecutionWebSocket.

(** ** The request client: [ApiClient.request] *)

Module ApiClient.

(** [class ApiRequestError extends Error].  [message] is the argument handed
    to [super(message)], which stores its string conversion: the identity on
    the strings the [ApiError] type declares. *)
Record ApiRequestError := {
  message : jsval;
  status : Z;
  data : option jsval
}.

(** A value the runtime throws or rejects a promise with: an [Error] (or a
    DOMException, which is one) with its [name] and [message], or a value
    that is not an [Error]. *)
Inductive Thrown :=
| ErrorObject (name msg : string)
| NotAnError.

(** What can reach the [catch] block: a value of the runtime, or the
    [ApiRequestError] the [try] block itself throws. *)
Inductive Exn :=
| Runtime (e : Thrown)
| Api (e : ApiRequestError).

(** What [JSON.parse(text)] does. *)
Inductive Parsed :=
| ParseOk (v : jsval)
| SyntaxError (msg : string).

(** The body of a response: it arrives [ms] milliseconds after the headers
    as [text], it fails to arrive, or it never ends. *)
Inductive Body :=
| BodyText (ms : Z) (text : string) (parsed : Parsed)
| BodyFails (ms : Z) (e : Thrown)
| BodyStalls.

Record Response := {
  httpStatus : Z;
  statusText : string;
  body : Body
}.

(** [response.ok] *)
Definition ok (r : Response) : bool :=
  (200 <=? httpStatus r)%Z && (httpStatus r <=? 299)%Z.

(** What the transport does with one [fetch] left to itself: the promise
    resolves with a response once the headers are in, [ms] milliseconds
    after the call; it rejects; or it stays pending.  Left to itself [fetch]
    does not reject with an error named AbortError: it does so only when
    the signal it was given is aborted. *)
Inductive Fetch :=
| Responds (ms : Z) (r : Response)
| Rejects (ms : Z) (e : Thrown)
| Hangs.

(** What [request] does to its environment, in order. *)
Inductive Action :=
| ArmTimer (ms : Z)
| CallFetch
| Abort
| ClearTimer.

(** An awaited computation: it returns, throws, or never settles. *)
Inductive Outcome (A : Type) :=
| Returns (a : A)
| Throws (x : Exn)
| Pending.

Arguments Returns {A} a.
Arguments Throws {A} x.
Arguments Pending {A}.

(** An asynchronous computation with the actions it performs. *)
Definition Task (A : Type) : Type := Outcome A * list Action.

#[global] Instance Task_ret : MRet Task := λ A a, (Returns a, []).

#[global] Instance Task_bind : MBind Task := λ A B k m,
  match m.1 with
  | Returns a => ((k a).1, m.2 ++ (k a).2)
  | Throws x => (Throws x, m.2)
  | Pending => (Pending, m.2)
  end.

Definition act (a : Action) : Task unit := (Returns (), [a]).
Definition throw {A} (x : Exn) : Task A := (Throws x, []).

(** [try { body } catch (error) { handler }] *)
Definition try_catch {A} (body : Task A) (handler : Exn → Task A) : Task A :=
  match body.1 with
  | Throws x => ((handler x).1, body.2 ++ (handler x).2)
  | _ => body
  end.

(** [promise.catch(() => fallback)] *)
Definition or_else {A} (promise : Task A) (fallback : A) : Task A :=
  try_catch promise (λ _, mret fallback).

(** [API_CONFIG.TIMEOUT] *)
Definition TIMEOUT : Z := 30000.

(** What [fetch] rejects with once [controller.abort()] has run. *)
Definition abortError : Thrown :=
  ErrorObject "AbortError" "signal is aborted without reason".

(** [await fetch(url, {..., signal: controller.signal})] under the timer
    armed for [timeout]: when the transport has not settled the promise
    before the timer expires, the timer's callback runs
    [controller.abort()] and the promise rejects with the AbortError.  A
    promise that would settle exactly at the deadline loses the race. *)
Definition await_fetch (timeout : Z) (f : Fetch) : Task Response :=
  let aborted := (Throws (Runtime abortError), [CallFetch; Abort]) in
  match f with
  | Responds ms r =>
    if (ms <? timeout)%Z then (Returns r, [CallFetch]) else aborted
  | Rejects ms e =>
    if (ms <? timeout)%Z then (Throws (Runtime e), [CallFetch]) else aborted
  | Hangs => aborted
  end.

(** [await response.text()] *)
Definition response_text (r : Response) : Task string :=
  match body r with
  | BodyText _ text _ => mret text
  | BodyFails _ e => throw (Runtime e)
  | BodyStalls => (Pending, [])
  end.

(** [JSON.parse(text)] on the text of [r] *)
Definition JSON_parse (r : Response) : Task jsval :=
  match body r with
  | BodyText _ _ (ParseOk v) => mret v
  | BodyText _ _ (SyntaxError msg) => throw (Runtime (ErrorObject "SyntaxError" msg))
  | BodyFails _ e => throw (Runtime e)
  | BodyStalls => (Pending, [])
  end.

(** [response.json()]: read the text, then parse it. *)
Definition response_json (r : Response) : Task jsval :=
  response_text r;; JSON_parse r.

(** [v.k] as a computation: a TypeError when [v] is [null]. *)
Definition read (v : jsval) (k : string) : Task jsval :=
  match getProp v k with
  | Some x => mret x
  | None =>
    throw (Runtime (ErrorObject "TypeError"
      ("Cannot read properties of null (reading '" +:+ k +:+ "')")))
  end.

(** The fallback of [response.json().catch(...)]. *)
Definition fallbackErrorData (r : Response) : jsval :=
  JObj (<["error" := JStr "Request failed"]> (<["detail" := JStr (statusText r)]> ∅)).

(** [request(endpoint, options)] of a client whose [this.timeout] is
    [timeout], against a transport that behaves as [f]. *)
Definition request (timeout : Z) (f : Fetch) : Task jsval :=
  act (ArmTimer timeout);;
  try_catch
    (response ← await_fetch timeout f;
     act ClearTimer;;
     if negb (ok response) then
       errorData ← or_else (response_json response) (fallbackErrorData response);
       error ← read errorData "error";
       throw (Api {| message := js_or error (JStr "Request failed");
                     status := httpStatus response;
                     data := Some errorData |})
     else
       text ← response_text response;
       if String.eqb text "" then mret (JObj ∅)
       else JSON_parse response)
    (λ error,
       act ClearTimer;;
       match error with
       | Api e => throw (Api e)
       | Runtime (ErrorObject name msg) =>
         if String.eqb name "AbortError"
         then throw (Api {| message := JStr "Request timeout"; status := 408;
                            data := None |})
         else throw (Api {| message := JStr msg; status := 0; data := None |})
       | Runtime NotAnError =>
         throw (Api {| message := JStr "Network error"; status := 0;
                       data := None |})
       end).

(** What the caller of [request] gets. *)
Definition result {A} (t : Task A) : Outcome A := t.1.

Definition actions {A} (t : Task A) : list Action := t.2.

(** How many times [controller.abort()] ran. *)
Definition aborts {A} (t : Task A) : nat :=
  length (List.filter (λ a, match a with Abort => true | _ => false end) (actions t)).

(** How long the exchange takes when nothing cuts it short: headers, then
    body.  [None] when it never ends. *)
Definition duration (f : Fetch) : option Z :=
  match f with
  | Responds ms r =>
    match body r with
    | BodyText bms _ _ | BodyFails bms _ => Some (ms + bms)%Z
    | BodyStalls => None
    end
  | Rejects ms _ => Some ms
  | Hangs => None
  end.

(** The exchange takes longer than [timeout]. *)
Definition exceeds (timeout : Z) (f : Fetch) : Prop :=
  match duration f with
  | Some d => (timeout < d)%Z
  | None => True
  end.

(** The [fetch] promise is still pending when [timeout] has elapsed. *)
Definition unanswered (timeout : Z) (f : Fetch) : Prop :=
  match f with
  | Responds ms _ | Rejects ms _ => (timeout < ms)%Z
  | Hangs => True
  end.

(** *** The getters of [ApiRequestError] *)

Definition isNetworkError (e : ApiRequestError) : bool := (status e =? 0)%Z.
Definition isTimeout (e : ApiRequestError) : bool := (status e =? 408)%Z.
Definition isNotFound (e : ApiRequestError) : bool := (status e =? 404)%Z.
Definition isServerError (e : ApiRequestError) : bool := (500 <=? status e)%Z.

(** *** The endpoints with a query string *)

(** [API_ENDPOINTS.TEST_CASES] and [API_ENDPOINTS.EXECUTIONS] *)
Definition TEST_CASES : string := "/scripts/test-cases".
Definition EXECUTIONS : string := "/executions".

(** [!!s] for an optional string, [!!n] for an optional number. *)
Definition truthyString (o : option string) : bool :=
  match o with
  | Some s => negb (String.eqb s "")
  | None => false
  end.

Definition truthyNumber (o : option Z) : bool :=
  match o with
  | Some n => negb (n =? 0)%Z
  | None => false
  end.

(** The entries of a [URLSearchParams], in order. *)
Definition URLSearchParams := list (string * string).

(** [searchParams.set(name, value)]: the first entry of that name gets the
    value and the others of that name go; without one, the entry is
    appended. *)
Fixpoint set (name value : string) (ps : URLSearchParams) : URLSearchParams :=
  match ps with
  | [] => [(name, value)]
  | (n, v) :: rest =>
    if String.eqb n name
    then (name, value) :: List.filter (λ p, negb (String.eqb p.1 name)) rest
    else (n, v) :: set name value rest
  end.

(** [parts.join(sep)] *)
Fixpoint join (sep : string) (parts : list string) : string :=
  match parts with
  | [] => ""
  | [x] => x
  | x :: rest => x +:+ sep +:+ join sep rest
  end.

(** The filters of [getExecutionHistory]; every field is optional. *)
Module HistoryParams.
Record t := {
  project_id : option string;
  status : option string;
  limit : option Z;
  offset : option Z
}.
End HistoryParams.

Section Endpoints.

(** The application/x-www-form-urlencoded serializer of the platform, as
    [URLSearchParams.toString] applies it to names and values. *)
Variable encode : string → string.

(** [Number.prototype.toString] on the integers the filters carry. *)
Variable numberToString : Z → string.

(** [searchParams.toString()] *)
Definition toString (ps : URLSearchParams) : string :=
  join "&" (map (λ p, encode p.1 +:+ "=" +:+ encode p.2) ps).

(** The endpoint [getTestCases(projectId)] requests: the id goes into the
    query as it is. *)
Definition getTestCases_endpoint (projectId : option string) : string :=
  if truthyString projectId
  then TEST_CASES +:+ "?project_id=" +:+ default "" projectId
  else TEST_CASES.

(** The [searchParams] that [getExecutionHistory(params)] builds; [params]
    itself is optional. *)
Definition getExecutionHistory_searchParams
    (params : option HistoryParams.t) : URLSearchParams :=
  let project_id := params ≫= HistoryParams.project_id in
  let status := params ≫= HistoryParams.status in
  let limit := params ≫= HistoryParams.limit in
  let offset := params ≫= HistoryParams.offset in
  let sp0 : URLSearchParams := [] in
  let sp1 := if truthyString project_id
             then set "project_id" (default "" project_id) sp0 else sp0 in
  let sp2 := if truthyString status
             then set "status" (default "" status) sp1 else sp1 in
  let sp3 := if truthyNumber limit
             then set "limit" (numberToString (default 0%Z limit)) sp2 else sp2 in
  if truthyNumber offset
  then set "offset" (numberToString (default 0%Z offset)) sp3 else sp3.

(** The endpoint [getExecutionHistory(params)] requests. *)
Definition getExecutionHistory_endpoint (params : option HistoryParams.t) : string :=
  let query := toString (getExecutionHistory_searchParams params) in
  if negb (String.eqb query "") then EXECUTIONS +:+ "?" +:+ query else EXECUTIONS.

End Endpoints.

End ApiClient.

(** ** The React hook: [useExecutionWebSocket]

    The hook keeps five pieces of component state and hands the channel four
    closures that update them.  A state update is applied when its closure
    is called, in call order; the closures of every [connect] behave alike
    and carry the identities below. *)

Module UseExecutionWebSocket.

(** [interface UseExecutionWebSocketOptions], read through [optionsRef]. *)
Record Options := {
  onStepComplete : option ExecutionWebSocket.Handler;
  onExecutionComplete : option ExecutionWebSocket.Handler;
  onError : option ExecutionWebSocket.Handler
}.

(** The [useState] cells. *)
Record HookState := {
  status : ExecutionWebSocket.ConnectionStatus;
  steps : list jsval;
  result : option jsval;
  error : option jsval;
  executionId : option string
}.

(** The initial values of the cells. *)
Definition mounted : HookState :=
  {| status := ExecutionWebSocket.disconnected; steps := []; result := None;
     error := None; executionId := None |}.

(** The closures the hook passes to [executionWebSocket.connect]. *)
Definition stepClosure : ExecutionWebSocket.Handler := 1.
Definition completeClosure : ExecutionWebSocket.Handler := 2.
Definition errorClosure : ExecutionWebSocket.Handler := 3.
Definition statusClosure : ExecutionWebSocket.Handler := 4.

Definition closures : ExecutionWebSocket.ExecutionWebSocketCallbacks :=
  {| ExecutionWebSocket.onStepComplete := Some stepClosure;
     ExecutionWebSocket.onExecutionComplete := Some completeClosure;
     ExecutionWebSocket.onError := Some errorClosure;
     ExecutionWebSocket.onConnectionChange := Some statusClosure |}.

(** [optionsRef.current.onX?.(arg)]: the call forwarded to the component. *)
Definition forward (f : option ExecutionWebSocket.Handler)
    (call : ExecutionWebSocket.Handler → ExecutionWebSocket.Effect)
    : list ExecutionWebSocket.Effect :=
  match f with
  | Some g => [call g]
  | None => []
  end.

(** What one effect of the channel does to the hook: a call of one of the
    four closures runs its body, anything else passes the hook by. *)
Definition deliver (options : Options) (e : ExecutionWebSocket.Effect)
    (h : HookState) : HookState * list ExecutionWebSocket.Effect :=
  match e with
  | ExecutionWebSocket.CallConnectionChange f newStatus =>
    if Nat.eqb f statusClosure then
      ({| status := newStatus; steps := steps h; result := result h;
          error := error h; executionId := executionId h |}, [])
    else (h, [])
  | ExecutionWebSocket.CallStepComplete f step =>
    if Nat.eqb f stepClosure then
      ({| status := status h; steps := steps h ++ [step]; result := result h;
          error := error h; executionId := executionId h |},
       forward (onStepComplete options)
               (λ g, ExecutionWebSocket.CallStepComplete g step))
    else (h, [])
  | ExecutionWebSocket.CallExecutionComplete f executionResult =>
    if Nat.eqb f completeClosure then
      ({| status := status h; steps := steps h; result := Some executionResult;
          error := error h; executionId := executionId h |},
       forward (onExecutionComplete options)
               (λ g, ExecutionWebSocket.CallExecutionComplete g executionResult))
    else (h, [])
  | ExecutionWebSocket.CallError f errorMessage =>
    if Nat.eqb f errorClosure then
      ({| status := status h; steps := steps h; result := result h;
          error := Some errorMessage; executionId := executionId h |},
       forward (onError options)
               (λ g, ExecutionWebSocket.CallError g errorMessage))
    else (h, [])
  | _ => (h, [])
  end.

(** The effects of one run of the channel, delivered in order. *)
Fixpoint deliverAll (options : Options) (t : list ExecutionWebSocket.Effect)
    (h : HookState) : HookState * list ExecutionWebSocket.Effect :=
  match t with
  | [] => (h, [])
  | e :: t =>
    let '(h1, out1) := deliver options e h in
    let '(h2, out2) := deliverAll options t h1 in
    (h2, out1 ++ out2)
  end.

(** The hook together with the singleton channel it drives. *)
Record System := { hook : HookState; channel : ExecutionWebSocket.State }.

(** What can happen to a mounted hook: the component calls [connect] or
    [disconnect], the component unmounts, or the runtime delivers an event
    to the channel. *)
Inductive Happening :=
| HookConnect (id : string)
| HookDisconnect
| Unmount
| Delivered (e : ExecutionWebSocket.Event).

Section Hook.

Variable WS_URL : string.
Variable WebSocket_throws : string → bool.
Variable options : Options.

(** The state updates at the head of the hook's [connect]. *)
Definition reset (id : string) (h : HookState) : HookState :=
  {| status := status h; steps := []; result := None; error := None;
     executionId := Some id |}.

(** The state updates at the tail of the hook's [disconnect]. *)
Definition closed (h : HookState) : HookState :=
  {| status := ExecutionWebSocket.disconnected; steps := steps h;
     result := result h; error := error h; executionId := None |}.

(** One happening: the new system and the calls forwarded to the
    component. *)
Definition happen (a : Happening) (sys : System)
    : System * list ExecutionWebSocket.Effect :=
  match a with
  | HookConnect id =>
    let '(c, t) := ExecutionWebSocket.exec
                     (ExecutionWebSocket.connect WS_URL WebSocket_throws id closures)
                     (channel sys) in
    let '(h, out) := deliverAll options t (reset id (hook sys)) in
    ({| hook := h; channel := c |}, out)
  | HookDisconnect =>
    let '(c, t) := ExecutionWebSocket.exec ExecutionWebSocket.disconnect
                     (channel sys) in
    let '(h, out) := deliverAll options t (hook sys) in
    ({| hook := closed h; channel := c |}, out)
  | Unmount =>
    let '(c, t) := ExecutionWebSocket.exec ExecutionWebSocket.disconnect
                     (channel sys) in
    let '(h, out) := deliverAll options t (hook sys) in
    ({| hook := h; channel := c |}, out)
  | Delivered e =>
    let '(c, t) := ExecutionWebSocket.exec
                     (ExecutionWebSocket.step WS_URL WebSocket_throws e)
                     (channel sys) in
    let '(h, out) := deliverAll options t (hook sys) in
    ({| hook := h; channel := c |}, out)
  end.

Fixpoint happenAll (acts : list Happening) (sys : System)
    : System * list ExecutionWebSocket.Effect :=
  match acts with
  | [] => (sys, [])
  | a :: acts =>
    let '(sys1, out1) := happen a sys in
    let '(sys2, out2) := happenAll acts sys1 in
    (sys2, out1 ++ out2)
  end.

End Hook.

(** The hook's [isConnected] *)
Definition isConnected (h : HookState) : bool :=
  match status h with
  | ExecutionWebSocket.connected => true
  | _ => false
  end.

(** A component that has just mounted, with the channel untouched. *)
Definition fresh : System :=
  {| hook := mounted; channel := ExecutionWebSocket.initial |}.

End UseExecutionWebSocket.

(** * Properties of the realtime channel *)

Import ExecutionWebSocket.

(** The state [disconnect] leaves behind: nothing to notify, nothing to
    reconnect to, nothing to close or clear. *)
Definition quiet (s : State) : Prop :=
  ws s = None ∧ executionId s = None ∧ callbacks s = noCallbacks ∧
  reconnectTimeout s = None.

(** How many timers are still to fire. *)
Definition npending (ts : list Timer) : nat := length (List.filter pending ts).

Arguments npending : simpl never.

(** The delays of a streak of failed reconnect attempts. *)
Definition reconnectDelays : list Z := [2000; 4000; 8000]%Z.

(** The functions a callback set holds. *)
Definition handlers (c : ExecutionWebSocketCallbacks) : list Handler :=
  omap id [onStepComplete c; onExecutionComplete c; onError c;
           onConnectionChange c].

(** The caller-supplied function an effect calls, if it calls one. *)
Definition invoked (e : Effect) : option Handler :=
  match e with
  | CallStepComplete f _ | CallExecutionComplete f _
  | CallError f _ | CallConnectionChange f _ => Some f
  | _ => None
  end.

(** Runs the method bodies as far as the state at hand allows. *)
Ltac run_methods :=
  cbv [step handleMessage onopen onmessage onclose onerror handleDisconnect
       disconnect connect establishConnection
       notifyConnectionChange notifyError notifyStepComplete
       notifyExecutionComplete newWebSocket wsClose setTimeout clearTimeout
       setReadyState expire exec
       mbind M_bind mret M_ret get modify emit
       set_ws set_executionId set_callbacks set_reconnectAttempts
       set_reconnectTimeout set_sockets set_timers
       ws executionId callbacks reconnectAttempts reconnectTimeout sockets
       timers onStepComplete onExecutionComplete onError onConnectionChange
       noCallbacks truthyId];
  cbn.

(** Case analysis on whatever a method body branches on. *)
Ltac branch :=
  run_methods;
  repeat (match goal with
          | |- context [if ?b then _ else _] => destruct b eqn:?
          | |- context [match ?x with Some _ => _ | None => _ end] =>
            destruct x eqn:?
          end; run_methods).

(** *** Sample runs *)

(** The default [WS_URL], and a constructor that accepts every URL. *)
Definition localhost : string := "ws://localhost:8000".
Definition accepts : string → bool := λ _, false.

(** Two callback sets with eight distinct functions. *)
Definition firstCallbacks : ExecutionWebSocketCallbacks :=
  {| onStepComplete := Some 11; onExecutionComplete := Some 12;
     onError := Some 13; onConnectionChange := Some 14 |}.

Definition secondCallbacks : ExecutionWebSocketCallbacks :=
  {| onStepComplete := Some 21; onExecutionComplete := Some 22;
     onError := Some 23; onConnectionChange := Some 24 |}.

(** [{type, execution_id, data}] *)
Definition frame (type id : string) (data : jsval) : jsval :=
  JObj (<["type" := JStr type]>
       (<["execution_id" := JStr id]>
       (<["data" := data]> ∅))).

Definition stepPayload (n : Z) : jsval :=
  JObj (<["step_number" := JNum n]> (<["result" := JBool true]> ∅)).

(** A subscription to [exec-42] whose socket has opened. *)
Definition subscribed : State :=
  (exec (run localhost accepts [Connect "exec-42" firstCallbacks; SocketOpen 0])
        initial).1.

(** The socket drops and three reconnect attempts fail in a row. *)
Definition failedStreak : list Event :=
  [SocketClose 0; TimerFired 0; SocketError 1; SocketClose 1;
   TimerFired 1; SocketClose 2; TimerFired 2; SocketClose 3].

(** The socket has dropped and the first reconnect timer is pending. *)
Definition waiting : State :=
  (exec (run localhost accepts [SocketClose 0]) subscribed).1.

(** A second [connect] while the first subscription is live, then a step
    frame and the close of the first socket. *)
Definition secondConnect : list Event :=
  [Connect "exec-1" firstCallbacks; SocketOpen 0;
   Connect "exec-2" secondCallbacks; SocketOpen 1;
   SocketMessage 0 (Some (frame "step_complete" "exec-1" (stepPayload 7)));
   SocketClose 0; TimerFired 0].

(** A third callback set. *)
Definition thirdCallbacks : ExecutionWebSocketCallbacks :=
  {| onStepComplete := Some 31; onExecutionComplete := Some 32;
     onError := Some 33; onConnectionChange := Some 34 |}.

(** Every [connect] after a [disconnect]: the close event of the socket that
    the first [disconnect] closed arrives after the second [connect] and
    arms a timer. *)
Definition reconnecting : list Event :=
  [Connect "exec-A" firstCallbacks; SocketOpen 0; Disconnect;
   Connect "exec-B" secondCallbacks; SocketClose 0].

(** The state those events lead to: timer 0 pending, socket 1 current and
    still connecting. *)
Definition rearmed : State :=
  (exec (run localhost accepts reconnecting) initial).1.

(** From there: [disconnect()], a third [connect], then the close event of
    the socket that this [disconnect] closed, and the timer it arms. *)
Definition closeAfterNextConnect : list Event :=
  [Disconnect; Connect "exec-C" thirdCallbacks; SocketClose 1; TimerFired 1].

(** A constructor that rejects every URL. *)
Definition rejects : string → bool := λ _, true.

(** A subscription to [exec-42] whose socket has not opened yet. *)
Definition dialing : State :=
  (exec (run localhost accepts [Connect "exec-42" firstCallbacks]) initial).1.

(** A frame of a type the router does not know. *)
Definition heartbeat : jsval :=
  JObj (<["type" := JStr "ping"]> ∅).

(** A 200 whose headers arrive after 100 ms and whose body takes a minute. *)
Definition slowBody : ApiClient.Fetch :=
  ApiClient.Responds 100
    {| ApiClient.httpStatus := 200; ApiClient.statusText := "OK";
       ApiClient.body := ApiClient.BodyText 60000 "{}" (ApiClient.ParseOk (JObj ∅)) |}.

(** A 502 from a proxy, with an HTML body. *)
Definition badGateway : ApiClient.Response :=
  {| ApiClient.httpStatus := 502; ApiClient.statusText := "Bad Gateway";
     ApiClient.body :=
       ApiClient.BodyText 5 "<html>Bad Gateway</html>"
         (ApiClient.SyntaxError "Unexpected token '<'") |}.

(** A 404 with the backend's structured payload. *)
Definition notFound : ApiClient.Response :=
  {| ApiClient.httpStatus := 404; ApiClient.statusText := "Not Found";
     ApiClient.body :=
       ApiClient.BodyText 5 "{...}"
         (ApiClient.ParseOk (JObj (<["error" := JStr "Project not found"]> ∅))) |}.

(** A 500 whose body is the JSON text [null]. *)
Definition nullBody : ApiClient.Response :=
  {| ApiClient.httpStatus := 500; ApiClient.statusText := "Internal Server Error";
     ApiClient.body := ApiClient.BodyText 5 "null" (ApiClient.ParseOk JNull) |}.

(** A 500 whose body never ends. *)
Definition stalledError : ApiClient.Response :=
  {| ApiClient.httpStatus := 500; ApiClient.statusText := "Internal Server Error";
     ApiClient.body := ApiClient.BodyStalls |}.

(** A 204 to a DELETE. *)
Definition noContent : ApiClient.Response :=
  {| ApiClient.httpStatus := 204; ApiClient.statusText := "No Content";
     ApiClient.body := ApiClient.BodyText 0 "" (ApiClient.SyntaxError "Unexpected end of JSON input") |}.

(** A component that listens to steps and results, and its hook once it
    has connected to [exec-42] and the socket has opened. *)
Definition watcher : UseExecutionWebSocket.Options :=
  {| UseExecutionWebSocket.onStepComplete := Some 7;
     UseExecutionWebSocket.onExecutionComplete := Some 8;
     UseExecutionWebSocket.onError := None |}.

Definition watching : UseExecutionWebSocket.System :=
  (UseExecutionWebSocket.happenAll localhost accepts watcher
     [UseExecutionWebSocket.HookConnect "exec-42";
      UseExecutionWebSocket.Delivered (SocketOpen 0)]
     UseExecutionWebSocket.fresh).1.

(** A 200 with the JSON text of an empty list, and a 200 with an HTML page. *)
Definition emptyList : ApiClient.Response :=
  {| ApiClient.httpStatus := 200; ApiClient.statusText := "OK";
     ApiClient.body := ApiClient.BodyText 2 "[]" (ApiClient.ParseOk (JArr [])) |}.

Definition htmlPage : ApiClient.Response :=
  {| ApiClient.httpStatus := 200; ApiClient.statusText := "OK";
     ApiClient.body :=
       ApiClient.BodyText 2 "<!doctype html>"
         (ApiClient.SyntaxError "Unexpected token '<'") |}.

(** What [fetch] rejects with when the server cannot be reached. *)
Definition connectionRefused : ApiClient.Thrown :=
  ApiClient.ErrorObject "TypeError" "Failed to fetch".

Section ChannelFacts.

Variable WS_URL : string.
Variable WebSocket_throws : string → bool.

Local Abbreviation step := (step WS_URL WebSocket_throws).
Local Abbreviation run := (run WS_URL WebSocket_throws).

Lemma npending_armed (ts : list Timer) (ms : Z) :
  npending (ts ++ [{| delay := ms; pending := true |}]) = S (npending ts).
Proof.
  unfold npending. rewrite List.filter_app, length_app. cbn. lia.
Qed.

Lemma npending_cancelled (ts : list Timer) (i : nat) :
  npending (alter cancelled i ts) ≤ npending ts.
Proof.
  unfold npending. revert i.
  induction ts as [|t ts IH]; intros [|i]; cbn; try lia.
  - destruct (pending t); cbn; lia.
  - specialize (IH i). destruct (pending t); cbn; lia.
Qed.

Lemma npending_fired (ts : list Timer) (i : nat) (t : Timer) :
  ts !! i = Some t → pending t = true →
  S (npending (alter cancelled i ts)) = npending ts.
Proof.
  unfold npending. revert i.
  induction ts as [|u ts IH]; intros [|i]; cbn; try discriminate.
  - intros [= ->] ->. reflexivity.
  - intros Hi Hp. specialize (IH i Hi Hp).
    destruct (pending u); cbn; lia.
Qed.

Lemma disconnect_quiet (s : State) : quiet (exec disconnect s).1.
Proof.
  destruct s as [w i c n [tid|] ks ts]; destruct w; unfold quiet; cbn; auto.
Qed.

Lemma step_quiet (e : Event) (s : State) :
  quiet s → isConnect e = false →
  quiet (exec (step e) s).1 ∧ (exec (step e) s).2 = [].
Proof.
  destruct s as [w i c n r ks ts].
  intros (Hw & Hi & Hc & Hr) He; cbn in Hw, Hi, Hc, Hr; subst.
  unfold quiet.
  destruct e as [sid|sid [m|]|sid|sid|tid|id cbs|]; try discriminate He;
    unfold ExecutionWebSocket.step, exec, mbind, M_bind, get;
    match goal with |- context [enabled ?e ?s] => destruct (enabled e s) end;
    cbn; auto.
  unfold handleMessage.
  destruct (getProp m "type") as [ty|]; cbn; auto.
  destruct (hasType ty "step_complete"); cbn; auto.
  destruct (hasType ty "execution_complete"); cbn; auto.
  destruct (hasType ty "error"); cbn; auto.
Qed.

Lemma run_cons (e : Event) (es : list Event) (s : State) :
  exec (run (e :: es)) s =
  ((exec (run es) (exec (step e) s).1).1,
   (exec (step e) s).2 ++ (exec (run es) (exec (step e) s).1).2).
Proof.
  unfold exec; cbn [ExecutionWebSocket.run]; unfold mbind, M_bind.
  destruct (step e s) as [[[] s1] t1]; cbn.
  destruct (run es s1) as [[[] s2] t2]; reflexivity.
Qed.

Lemma run_quiet (es : list Event) (s : State) :
  quiet s → noConnect es = true →
  quiet (exec (run es) s).1 ∧ (exec (run es) s).2 = [].
Proof.
  revert s; induction es as [|e es IH]; intros s Hq Hes.
  - split; [exact Hq | reflexivity].
  - cbn in Hes. apply andb_prop in Hes as [He Hes].
    apply negb_true_iff in He.
    destruct (step_quiet e s Hq He) as [Hq1 Ht1].
    destruct (IH _ Hq1 Hes) as [Hq2 Ht2].
    rewrite run_cons; cbn [fst snd]. rewrite Ht1, Ht2. auto.
Qed.

(** Routing a completion frame is the completion callback followed by
    [disconnect]. *)
Lemma handleMessage_complete (message data : jsval) (s : State) :
  getProp message "type" = Some (JStr "execution_complete") →
  getProp message "data" = Some data →
  handleMessage message s =
  (Normal, (exec (notifyExecutionComplete data;; disconnect) s).1,
           (exec (notifyExecutionComplete data;; disconnect) s).2).
Proof.
  intros Hty Hd. unfold handleMessage. rewrite Hty, Hd. cbn [hasType String.eqb].
  cbn -[disconnect notifyExecutionComplete].
  unfold exec, mbind, M_bind, mret, M_ret.
  destruct (notifyExecutionComplete data s) as [[[] s1] t1].
  destruct (disconnect s1) as [[[] s2] t2]. cbn. by rewrite app_nil_r.
Qed.

(** One event invokes the completion callback at most once, and when it
    does it leaves the channel quiet. *)
Lemma step_completion (e : Event) (s : State) :
  isConnect e = false →
  List.filter isCompletion (exec (step e) s).2 = [] ∨
  (length (List.filter isCompletion (exec (step e) s).2) = 1 ∧
   quiet (exec (step e) s).1).
Proof.
  destruct s as [w i [c1 c2 c3 c4] n r ks ts]. intros He.
  destruct e as [sid|sid [m|]|sid|sid|tid|id cbs|]; try discriminate He;
    unfold ExecutionWebSocket.step, exec, mbind, M_bind, get;
    match goal with |- context [enabled ?e ?s] => destruct (enabled e s) end;
    cbn; auto.
  all: unfold handleMessage, quiet; branch; auto 10.
Qed.

(** X22.  [disconnect()] called while a reconnect timer is pending clears
    that timer, so it can no longer fire; closes the current socket, if
    there is one, with code 1000; clears the execution id and the callbacks
    and puts the reconnect counter at its maximum.  From then on, whatever
    the sockets and timers still deliver, and for as long as the caller
    does not call [connect] again, the channel does nothing at all: no
    'connecting' notification, no new socket, no timer. *)
Theorem disconnect_cancels_pending_reconnect (s : State) (tid : nat) :
  reconnectTimeout s = Some tid →
  let s' := (exec disconnect s).1 in
  (exec disconnect s).2 =
    ClearTimeout tid ::
    match ws s with
    | Some sid => [WsClose sid 1000 "Client disconnect"]
    | None => []
    end ∧
  enabled (TimerFired tid) s' = false ∧
  ws s' = None ∧ executionId s' = None ∧ callbacks s' = noCallbacks ∧
  reconnectTimeout s' = None ∧
  reconnectAttempts s' = maxReconnectAttempts ∧
  ∀ es, noConnect es = true → (exec (run es) s').2 = [].
Proof.
  intros Hr s'.
  assert (Hq : quiet s') by apply disconnect_quiet.
  destruct Hq as (Hw & Hi & Hc & Ht).
  repeat split; try assumption.
  - destruct s as [w i c n r ks ts]; cbn in Hr; subst r.
    destruct w; reflexivity.
  - subst s'. destruct s as [w i c n r ks ts]; cbn in Hr; subst r.
    assert (Hts : ∀ w', timers (exec disconnect
                {| ws := w'; executionId := i; callbacks := c;
                   reconnectAttempts := n; reconnectTimeout := Some tid;
                   sockets := ks; timers := ts |}).1 = alter cancelled tid ts)
      by (intros [?|]; reflexivity).
    unfold enabled. rewrite Hts, list_lookup_alter_eq.
    destruct (ts !! tid) as [[d p]|]; reflexivity.
  - subst s'. destruct s as [w i c n r ks ts]; cbn in Hr; subst r.
    destruct w; reflexivity.
  - intros es Hes. apply run_quiet; [|exact Hes]. apply disconnect_quiet.
Qed.

(** C7.  Routing an [execution_complete] frame is the completion callback
    followed by [disconnect()]; after it, and for as long as the caller does
    not call [connect] again, no event (a further frame included) invokes
    any callback or has any other effect.  Hence between two calls of
    [connect] the completion callback is invoked at most once. *)
Theorem completion_closes_the_channel :
  (∀ (s : State) (message data : jsval),
     getProp message "type" = Some (JStr "execution_complete") →
     getProp message "data" = Some data →
     exec (handleMessage message) s =
       exec (notifyExecutionComplete data;; disconnect) s ∧
     ∀ es, noConnect es = true →
       (exec (run es) (exec (handleMessage message) s).1).2 = []) ∧
  (∀ (s : State) (es : list Event),
     noConnect es = true →
     (length (List.filter isCompletion (exec (run es) s).2) ≤ 1)%nat).
Proof.
  split.
  - intros s message data Hty Hd.
    assert (He : exec (handleMessage message) s =
                 exec (notifyExecutionComplete data;; disconnect) s)
      by (unfold exec at 1; rewrite (handleMessage_complete _ _ _ Hty Hd);
          reflexivity).
    split; [exact He|]. intros es Hes. rewrite He.
    apply run_quiet; [|exact Hes].
    unfold exec, mbind, M_bind.
    destruct (notifyExecutionComplete data s) as [[[] s1] t1].
    pose proof (disconnect_quiet s1) as Hq. unfold exec in Hq.
    destruct (disconnect s1) as [[[] s2] t2]. exact Hq.
  - intros s es; revert s. induction es as [|e es IH]; intros s Hes.
    + cbn. lia.
    + cbn in Hes. apply andb_prop in Hes as [He Hes].
      apply negb_true_iff in He.
      rewrite run_cons; cbn [fst snd]. rewrite List.filter_app, length_app.
      destruct (step_completion e s He) as [H0 | [H1 Hq]].
      * rewrite H0. cbn. apply IH, Hes.
      * destruct (run_quiet es _ Hq Hes) as [_ Hnil].
        rewrite Hnil, H1. cbn. lia.
Qed.

(** C8.  A frame of type 'error' whose payload is an object invokes
    [onError] with the payload's [message], or with 'Unknown error' when
    that is absent or falsy, and does nothing else: the state, and with it
    every socket, is as before, nothing is closed and no connection change
    is notified. *)
Theorem error_frame_reaches_onError_only
    (s : State) (sid : nat) (message : jsval) (fields : gmap string jsval)
    (f : Handler) :
  getProp message "type" = Some (JStr "error") →
  getProp message "data" = Some (JObj fields) →
  onError (callbacks s) = Some f →
  let text :=
    match fields !! "message" with
    | Some m => if truthy m then m else JStr "Unknown error"
    | None => JStr "Unknown error"
    end in
  handleMessage message s = (Normal, s, [CallError f text]) ∧
  (enabled (SocketMessage sid (Some message)) s = true →
   exec (step (SocketMessage sid (Some message))) s = (s, [CallError f text])).
Proof.
  intros Hty Hd Hf text.
  assert (H : handleMessage message s = (Normal, s, [CallError f text])).
  { unfold handleMessage. rewrite Hty, Hd. cbn [hasType String.eqb].
    cbn -[getProp]. unfold mbind, M_bind, get. rewrite Hf.
    subst text. cbn. unfold js_or.
    destruct (fields !! "message") as [m|]; cbn; [destruct (truthy m)|];
      reflexivity. }
  split; [exact H|]. intros Hen.
  unfold ExecutionWebSocket.step, exec, mbind, M_bind, get. rewrite Hen.
  unfold onmessage, mbind, M_bind. rewrite H. reflexivity.
Qed.

(** C10.  The router never reads [execution_id]: two frames that differ
    only there are routed alike, whatever execution the channel is
    subscribed to; so a step frame tagged with another execution's id is
    delivered to the current callbacks. *)
Theorem router_ignores_execution_id :
  (∀ (s : State) (fields : gmap string jsval) (a b : jsval),
     handleMessage (JObj (<["execution_id" := a]> fields)) s =
     handleMessage (JObj (<["execution_id" := b]> fields)) s) ∧
  (∀ (s : State) (sid : nat) (fields : gmap string jsval) (a b : jsval),
     exec (step (SocketMessage sid (Some (JObj (<["execution_id" := a]> fields))))) s =
     exec (step (SocketMessage sid (Some (JObj (<["execution_id" := b]> fields))))) s) ∧
  (∀ (s : State) (A B : string) (fields : gmap string jsval) (data : jsval)
     (f : Handler),
     executionId s = Some A → B ≠ A →
     fields !! "type" = Some (JStr "step_complete") →
     fields !! "data" = Some data →
     onStepComplete (callbacks s) = Some f →
     handleMessage (JObj (<["execution_id" := JStr B]> fields)) s =
       (Normal, s, [CallStepComplete f data])).
Proof.
  assert (Hsame : ∀ s fields a b,
     handleMessage (JObj (<["execution_id" := a]> fields)) s =
     handleMessage (JObj (<["execution_id" := b]> fields)) s).
  { intros s fields a b. unfold handleMessage, getProp.
    rewrite !lookup_insert_ne by discriminate. reflexivity. }
  split; [exact Hsame|]. split.
  - intros s sid fields a b.
    unfold ExecutionWebSocket.step, exec, mbind, M_bind, get; cbn [enabled].
    destruct (socketIn _ sid s); [|reflexivity].
    unfold onmessage, mbind, M_bind. rewrite (Hsame s fields a b). reflexivity.
  - intros s A B fields data f _ _ Hty Hd Hf.
    unfold handleMessage, getProp.
    rewrite !lookup_insert_ne by discriminate. rewrite Hty, Hd.
    cbn [default hasType String.eqb]. cbn.
    unfold notifyStepComplete, mbind, M_bind, get. rewrite Hf. reflexivity.
Qed.

(** What one event, other than an open or a [connect], does to the reconnect
    counter, the timers and the sockets: either it arms no timer, leaves the
    counter alone or puts it at its maximum, and constructs at most as many
    sockets as timers it consumes; or the counter was below its maximum and
    it arms the one timer of the next attempt. *)
Lemma step_reconnect (e : Event) (s : State) :
  isOpen e = false → isConnect e = false →
  let s' := (exec (step e) s).1 in
  let t := (exec (step e) s).2 in
  (scheduled t = [] ∧
   (reconnectAttempts s' = reconnectAttempts s ∨
    reconnectAttempts s' = maxReconnectAttempts) ∧
   length (constructed t) + npending (timers s') ≤ npending (timers s)) ∨
  (reconnectAttempts s < maxReconnectAttempts ∧
   scheduled t = [backoff (S (reconnectAttempts s))] ∧
   reconnectAttempts s' = S (reconnectAttempts s) ∧
   constructed t = [] ∧
   npending (timers s') = S (npending (timers s))).
Proof.
  destruct s as [w i [c1 c2 c3 c4] n r ks ts]. intros Ho He.
  destruct e as [sid|sid [m|]|sid|sid|tid|id cbs|]; try discriminate;
    branch.
  all: try (left; split; [reflexivity|]; split; [auto|];
            first [cbn; lia | apply npending_cancelled]).
  all: try (right; rewrite npending_armed; repeat split;
            match goal with
            | H : context [(_ <? _)] |- _ =>
              apply andb_prop in H as [_ H%Nat.ltb_lt]; exact H
            | H : context [(_ <=? _)] |- _ =>
              apply andb_prop in H as [_ H%Nat.leb_le];
              unfold maxReconnectAttempts; lia
            end).
  all: left; split; [reflexivity|]; split; [auto|].
  all: match goal with
       | H : match ?ts !! ?tid with Some _ => _ | None => _ end = true |- _ =>
         destruct (ts !! tid) as [t|] eqn:Hl; [|discriminate];
         rewrite <- (npending_fired _ tid t Hl H); cbn; lia
       end.
Qed.

Lemma scheduled_app (t u : list Effect) :
  scheduled (t ++ u) = scheduled t ++ scheduled u.
Proof. apply omap_app. Qed.

Lemma constructed_app (t u : list Effect) :
  constructed (t ++ u) = constructed t ++ constructed u.
Proof. apply omap_app. Qed.

(** The invariant of a streak of failed attempts: the delays armed so far
    are the first [k] of [reconnectDelays], the counter stands at [k] unless
    [disconnect] has put it at its maximum, and every socket constructed has
    consumed a timer. *)
Lemma run_reconnect (es : list Event) (s : State) (t0 : list Effect) (k : nat) :
  noOpenNoConnect es = true →
  k ≤ 3 →
  scheduled t0 = take k reconnectDelays →
  reconnectAttempts s = k ∨ reconnectAttempts s = maxReconnectAttempts →
  length (constructed t0) + npending (timers s) ≤ length (scheduled t0) →
  let t := t0 ++ (exec (run es) s).2 in
  (∃ k', k' ≤ 3 ∧ scheduled t = take k' reconnectDelays) ∧
  length (constructed t) ≤ length (scheduled t).
Proof.
  revert s t0 k. induction es as [|e es IH]; intros s t0 k Hes Hk Hsch Hn Hcount.
  - cbn. rewrite app_nil_r. split; [exists k; auto | lia].
  - cbn in Hes. apply andb_prop in Hes as [He Hes].
    apply andb_prop in He as [Ho Hc].
    apply negb_true_iff in Ho, Hc.
    cbv zeta. rewrite run_cons; cbn [fst snd]. rewrite app_assoc.
    destruct (step_reconnect e s Ho Hc)
      as [(Hs & Ha & Hp) | (Hlt & Hs & Ha & Hcs & Hp)].
    + apply (IH _ _ k Hes Hk).
      * rewrite scheduled_app, Hs, app_nil_r. exact Hsch.
      * destruct Ha as [-> | ->]; auto.
      * rewrite scheduled_app, constructed_app, Hs, app_nil_r, length_app. lia.
    + assert (Hk' : reconnectAttempts s = k ∧ k < 3)
        by (unfold maxReconnectAttempts in *; lia).
      destruct Hk' as [Hk' Hk3].
      apply (IH _ _ (S k) Hes).
      * lia.
      * rewrite scheduled_app, Hs, Hsch, Hk'.
        destruct k as [|[|[|k]]]; [reflexivity ..|lia].
      * left. lia.
      * rewrite scheduled_app, constructed_app, Hs, Hcs, app_nil_r, length_app, Hp.
        cbn [length]. lia.
Qed.

(** Once the counter is at its maximum and no timer is pending, nothing is
    armed and nothing is constructed any more. *)
Lemma run_exhausted (es : list Event) (s : State) :
  noOpenNoConnect es = true →
  reconnectAttempts s = maxReconnectAttempts →
  npending (timers s) = 0 →
  scheduled (exec (run es) s).2 = [] ∧ constructed (exec (run es) s).2 = [].
Proof.
  revert s. induction es as [|e es IH]; intros s Hes Hn Hp; [by split|].
  cbn in Hes. apply andb_prop in Hes as [He Hes].
  apply andb_prop in He as [Ho Hc].
  apply negb_true_iff in Ho, Hc.
  rewrite run_cons; cbn [fst snd]. rewrite scheduled_app, constructed_app.
  destruct (step_reconnect e s Ho Hc)
    as [(Hs & Ha & Hle) | (Hlt & _)]; [|lia].
  rewrite Hp in Hle.
  assert (Hcs : constructed (exec (step e) s).2 = [])
    by (apply length_zero_iff_nil; lia).
  destruct (IH (exec (step e) s).1 Hes) as [Hs' Hcs'].
  - destruct Ha as [Ha | Ha]; congruence.
  - lia.
  - by rewrite Hs, Hcs, Hs', Hcs'.
Qed.

(** C5.  Attempt [n] waits [min(1000 * 2^n, 10000)] ms: 2000, 4000 and
    8000 ms for attempts 1, 2 and 3, never more than 10000.  A close with an
    execution id set and the counter below 3 increments the counter and arms
    the timer of the next attempt; a close with the counter at 3 arms
    nothing.  So in a streak of failed attempts (no socket reaches OPEN, the
    caller does not call [connect]) that starts with the counter at zero and
    no timer pending, the timers armed are, in order, a prefix of 2000,
    4000, 8000 ms: at most three, never a fourth, and every socket
    constructed is the attempt of one of these timers.  Once the counter is
    at 3 with no timer pending, such a streak arms no timer and constructs
    no socket. *)
Theorem reconnect_policy :
  (backoff 1 = 2000 ∧ backoff 2 = 4000 ∧ backoff 3 = 8000)%Z ∧
  (∀ n, backoff n ≤ 10000)%Z ∧
  (∀ s : State,
     truthyId (executionId s) = true →
     reconnectAttempts s < maxReconnectAttempts →
     scheduled (exec handleDisconnect s).2 = [backoff (S (reconnectAttempts s))] ∧
     reconnectAttempts (exec handleDisconnect s).1 = S (reconnectAttempts s)) ∧
  (∀ s : State,
     maxReconnectAttempts ≤ reconnectAttempts s →
     scheduled (exec handleDisconnect s).2 = [] ∧
     timers (exec handleDisconnect s).1 = timers s) ∧
  (∀ (s : State) (es : list Event),
     reconnectAttempts s = 0 →
     npending (timers s) = 0 →
     noOpenNoConnect es = true →
     (∃ k, k ≤ 3 ∧ scheduled (exec (run es) s).2 = take k reconnectDelays) ∧
     length (constructed (exec (run es) s).2) ≤
       length (scheduled (exec (run es) s).2)) ∧
  (∀ (s : State) (es : list Event),
     reconnectAttempts s = maxReconnectAttempts →
     npending (timers s) = 0 →
     noOpenNoConnect es = true →
     scheduled (exec (run es) s).2 = [] ∧ constructed (exec (run es) s).2 = []).
Proof.
  split; [repeat split|]. split; [intros n; apply Z.le_min_r|].
  split; [|split; [|split]].
  - intros [w [id|] [c1 c2 c3 c4] n r ks ts] Hid Hn; [|discriminate].
    cbn in Hid, Hn. unfold maxReconnectAttempts in Hn.
    branch; try (split; reflexivity).
    all: match goal with H : _ && _ = false |- _ =>
           rewrite Hid in H; cbn in H; apply Nat.leb_gt in H; lia end.
  - intros [w i [c1 c2 c3 c4] n r ks ts] Hn.
    cbn in Hn. unfold maxReconnectAttempts in Hn.
    branch; try (split; reflexivity).
    all: match goal with H : _ && _ = true |- _ =>
           apply andb_prop in H as [_ H]; apply Nat.leb_le in H; lia end.
  - intros s es Hn Hp Hes.
    apply (run_reconnect es s [] 0 Hes); cbn; auto; lia.
  - intros s es Hn Hp Hes. by apply run_exhausted.
Qed.

End ChannelFacts.

(** The sample streak: 2000, 4000 and 8000 ms, three new sockets, and the
    fourth close only notifies. *)
Example failed_streak_trace :
  feasible localhost accepts failedStreak subscribed = true ∧
  scheduled (exec (run localhost accepts failedStreak) subscribed).2 =
    [2000; 4000; 8000]%Z ∧
  constructed (exec (run localhost accepts failedStreak) subscribed).2 =
    [1; 2; 3] ∧
  last (exec (run localhost accepts failedStreak) subscribed).2 =
    Some (CallConnectionChange 14 disconnected) ∧
  npending (timers (exec (run localhost accepts failedStreak) subscribed).1) = 0.
Proof. repeat split; vm_compute; reflexivity. Qed.

Lemma reconnect_policy_witness :
  (scheduled (exec handleDisconnect subscribed).2 = [backoff 1] ∧
   reconnectAttempts (exec handleDisconnect subscribed).1 = 1) ∧
  (scheduled (exec handleDisconnect
     (exec (run localhost accepts failedStreak) subscribed).1).2 = [] ∧
   timers (exec handleDisconnect
     (exec (run localhost accepts failedStreak) subscribed).1).1 =
   timers (exec (run localhost accepts failedStreak) subscribed).1) ∧
  ((∃ k, k ≤ 3 ∧
      scheduled (exec (run localhost accepts failedStreak) subscribed).2 =
      take k reconnectDelays) ∧
   length (constructed (exec (run localhost accepts failedStreak) subscribed).2) ≤
   length (scheduled (exec (run localhost accepts failedStreak) subscribed).2)) ∧
  (scheduled (exec (run localhost accepts [SocketError 3; SocketClose 3; TimerFired 2])
        (exec (run localhost accepts failedStreak) subscribed).1).2 = [] ∧
   constructed (exec (run localhost accepts [SocketError 3; SocketClose 3; TimerFired 2])
        (exec (run localhost accepts failedStreak) subscribed).1).2 = []).
Proof.
  pose proof (reconnect_policy localhost accepts) as (_ & _ & H1 & H2 & H3 & H4).
  split; [|split; [|split]].
  - apply (H1 subscribed); [reflexivity | vm_compute; repeat constructor].
  - apply (H2 (exec (run localhost accepts failedStreak) subscribed).1).
    vm_compute. constructor.
  - apply (H3 subscribed failedStreak); reflexivity.
  - apply (H4 (exec (run localhost accepts failedStreak) subscribed).1);
      reflexivity.
Defined.

Lemma disconnect_cancels_pending_reconnect_witness :
  reconnectTimeout rearmed = Some 0 ∧
  enabled (TimerFired 0) rearmed = true ∧
  (exec disconnect rearmed).2 =
    [ClearTimeout 0; WsClose 1 1000 "Client disconnect"] ∧
  enabled (TimerFired 0) (exec disconnect rearmed).1 = false ∧
  feasible localhost accepts [SocketError 1; SocketClose 1]
    (exec disconnect rearmed).1 = true ∧
  (exec (run localhost accepts [SocketError 1; SocketClose 1; TimerFired 0])
        (exec disconnect rearmed).1).2 = [].
Proof.
  assert (H : reconnectTimeout rearmed = Some 0) by reflexivity.
  pose proof (disconnect_cancels_pending_reconnect localhost accepts rearmed 0 H)
    as (Ht & Hoff & _ & _ & _ & _ & _ & Hrun).
  split; [exact H|]. split; [reflexivity|]. split; [exact Ht|].
  split; [exact Hoff|]. split; [reflexivity|]. apply Hrun. reflexivity.
Defined.

(** C6 on the sample run, in which every [connect] follows a
    [disconnect].  [disconnect()] is called with timer 0 pending and socket
    1 live: it clears the timer and closes the socket with code 1000.  The
    caller then connects to another execution, and the close event of
    socket 1 arrives: the channel notifies the new subscription of a
    disconnect, arms a 2000 ms timer, and when it fires notifies
    'connecting' and constructs another socket. *)
Theorem close_after_next_connect_reconnects :
  feasible localhost accepts (reconnecting ++ closeAfterNextConnect) initial = true ∧
  reconnectTimeout rearmed = Some 0 ∧
  enabled (TimerFired 0) rearmed = true ∧
  (exec (run localhost accepts closeAfterNextConnect) rearmed).2 =
    [ClearTimeout 0;
     WsClose 1 1000 "Client disconnect";
     CallConnectionChange 34 connecting;
     NewWebSocket 2 "ws://localhost:8000/ws/execution/exec-C";
     CallConnectionChange 34 disconnected;
     SetTimeout 1 2000;
     CallConnectionChange 34 connecting;
     NewWebSocket 3 "ws://localhost:8000/ws/execution/exec-C"].
Proof. repeat split; vm_compute; reflexivity. Qed.

(** [connect] installs the new callback set and at most appends a socket. *)
Lemma connect_effect
    (WS_URL : string) (WebSocket_throws : string → bool)
    (s : State) (id : string) (cbs : ExecutionWebSocketCallbacks) :
  callbacks (exec (connect WS_URL WebSocket_throws id cbs) s).1 = cbs ∧
  ∃ new, sockets (exec (connect WS_URL WebSocket_throws id cbs) s).1 =
         sockets s ++ new.
Proof.
  destruct s as [w i c n r ks ts], cbs as [c1 c2 c3 c4].
  branch; (split; [reflexivity|]);
    first [by exists [] ; rewrite app_nil_r | by eexists [_]].
Qed.

(** The second [connect], general form: a socket that is OPEN when
    [connect] is called stays OPEN, and a step frame it then delivers goes
    to the new callback set. *)
Lemma connect_keeps_old_socket_routing
    (WS_URL : string) (WebSocket_throws : string → bool)
    (s : State) (sid : nat) (id : string) (cbs : ExecutionWebSocketCallbacks)
    (f : Handler) (fields : gmap string jsval) (data : jsval) :
  enabled (SocketMessage sid (Some (JObj fields))) s = true →
  onStepComplete cbs = Some f →
  fields !! "type" = Some (JStr "step_complete") →
  fields !! "data" = Some data →
  let s1 := (exec (connect WS_URL WebSocket_throws id cbs) s).1 in
  enabled (SocketMessage sid (Some (JObj fields))) s1 = true ∧
  (exec (step WS_URL WebSocket_throws (SocketMessage sid (Some (JObj fields)))) s1).2 =
    [CallStepComplete f data].
Proof.
  intros Hen Hf Hty Hd s1.
  destruct (connect_effect WS_URL WebSocket_throws s id cbs) as [Hc [new Hs]].
  fold s1 in Hc, Hs. clearbody s1.
  assert (Hen1 : enabled (SocketMessage sid (Some (JObj fields))) s1 = true).
  { unfold enabled, socketIn in *. rewrite Hs.
    destruct (sockets s !! sid) as [k|] eqn:Hk; [|discriminate].
    rewrite lookup_app_l by (eapply lookup_lt_Some; eauto). by rewrite Hk. }
  split; [exact Hen1|].
  unfold ExecutionWebSocket.step, exec, mbind, M_bind, get.
  rewrite Hen1.
  unfold onmessage, handleMessage, getProp, mbind, M_bind. rewrite Hty, Hd.
  cbn [default hasType String.eqb]. cbn.
  unfold notifyStepComplete, mbind, M_bind, get. rewrite Hc, Hf. reflexivity.
Qed.

(** C1 on the sample run.  After the second [connect] both sockets are
    open; a step frame that arrives on the first socket is delivered to the
    second callback set; and when the first socket closes, the channel
    notifies the second subscription of a disconnect and, two seconds
    later, constructs a third socket for it. *)
Theorem second_connect_keeps_first_socket :
  feasible localhost accepts secondConnect initial = true ∧
  readyState <$> sockets (exec (run localhost accepts (take 4 secondConnect)) initial).1 =
    [OPEN; OPEN] ∧
  (exec (run localhost accepts secondConnect) initial).2 =
    [CallConnectionChange 14 connecting;
     NewWebSocket 0 "ws://localhost:8000/ws/execution/exec-1";
     CallConnectionChange 14 connected;
     CallConnectionChange 24 connecting;
     NewWebSocket 1 "ws://localhost:8000/ws/execution/exec-2";
     CallConnectionChange 24 connected;
     CallStepComplete 21 (stepPayload 7);
     CallConnectionChange 24 disconnected;
     SetTimeout 0 2000;
     CallConnectionChange 24 connecting;
     NewWebSocket 2 "ws://localhost:8000/ws/execution/exec-2"].
Proof. repeat split; vm_compute; reflexivity. Qed.

Lemma completion_closes_the_channel_witness :
  (exec (handleMessage (frame "execution_complete" "exec-42" (JObj ∅))) subscribed).2 =
    [CallExecutionComplete 12 (JObj ∅); WsClose 0 1000 "Client disconnect"] ∧
  (exec (run localhost accepts
           [SocketMessage 0 (Some (frame "step_complete" "exec-42" (stepPayload 3)));
            SocketClose 0])
        (exec (handleMessage (frame "execution_complete" "exec-42" (JObj ∅)))
              subscribed).1).2 = [] ∧
  length (List.filter isCompletion
    (exec (run localhost accepts
             [SocketMessage 0 (Some (frame "execution_complete" "exec-42" (JObj ∅)));
              SocketMessage 0 (Some (frame "execution_complete" "exec-42" (JObj ∅)))])
          subscribed).2) ≤ 1.
Proof.
  pose proof (completion_closes_the_channel localhost accepts) as [H1 H2].
  destruct (H1 subscribed (frame "execution_complete" "exec-42" (JObj ∅)) (JObj ∅)
               eq_refl eq_refl) as [Hrouted Hafter].
  split; [rewrite Hrouted; reflexivity|].
  split; [apply Hafter; reflexivity|].
  apply H2. reflexivity.
Defined.

Lemma error_frame_reaches_onError_only_witness :
  handleMessage
    (frame "error" "exec-42" (JObj (<["message" := JStr "Device offline"]> ∅)))
    subscribed =
  (Normal, subscribed, [CallError 13 (JStr "Device offline")]) ∧
  exec (step localhost accepts (SocketMessage 0 (Some (frame "error" "exec-42" (JObj ∅)))))
       subscribed =
  (subscribed, [CallError 13 (JStr "Unknown error")]).
Proof.
  split.
  - exact (proj1 (error_frame_reaches_onError_only localhost accepts subscribed 0
             (frame "error" "exec-42" (JObj (<["message" := JStr "Device offline"]> ∅)))
             (<["message" := JStr "Device offline"]> ∅) 13
             eq_refl eq_refl eq_refl)).
  - exact (proj2 (error_frame_reaches_onError_only localhost accepts subscribed 0
             (frame "error" "exec-42" (JObj ∅)) ∅ 13
             eq_refl eq_refl eq_refl) eq_refl).
Defined.

Lemma router_ignores_execution_id_witness :
  executionId subscribed = Some "exec-42" ∧
  handleMessage
    (JObj (<["execution_id" := JStr "exec-7"]>
          (<["type" := JStr "step_complete"]> (<["data" := stepPayload 1]> ∅))))
    subscribed =
  (Normal, subscribed, [CallStepComplete 11 (stepPayload 1)]).
Proof.
  split; [reflexivity|].
  apply (proj2 (proj2 (router_ignores_execution_id localhost accepts))
           subscribed "exec-42" "exec-7"
           (<["type" := JStr "step_complete"]> (<["data" := stepPayload 1]> ∅))
           (stepPayload 1) 11);
    [reflexivity | discriminate | reflexivity | reflexivity | reflexivity].
Defined.

(** * Properties of the request client *)

Import ApiClient.

(** Runs [request] as far as the exchange at hand allows. *)
Ltac run_request :=
  cbv [request await_fetch response_json response_text JSON_parse read or_else
       try_catch act throw result actions aborts
       mbind Task_bind mret Task_ret fst snd];
  cbn.

(** The [try] block after a response that arrived in time. *)
Lemma request_answered (timeout ms : Z) (r : Response) :
  (ms < timeout)%Z →
  await_fetch timeout (Responds ms r) = (Returns r, [CallFetch]).
Proof.
  intros Hms. unfold await_fetch.
  destruct (Z.ltb_spec ms timeout); [reflexivity | lia].
Qed.

(** C2, at a sample exchange: the headers arrive after 100 ms, the body a
    minute later.  The exchange takes longer than the 30 s timeout, yet
    nothing is aborted and the call resolves. *)
Lemma timeout_misses_slow_body :
  exceeds TIMEOUT slowBody ∧
  aborts (request TIMEOUT slowBody) = 0 ∧
  result (request TIMEOUT slowBody) = Returns (JObj ∅) ∧
  ¬ (∀ f, exceeds TIMEOUT f →
          aborts (request TIMEOUT f) = 1 ∧
          ∃ e, result (request TIMEOUT f) = Throws (Api e) ∧ status e = 408%Z).
Proof.
  assert (Hex : exceeds TIMEOUT slowBody) by (vm_compute; reflexivity).
  repeat split; try reflexivity; try exact Hex.
  intros H. destruct (H slowBody Hex) as [Habort _]. discriminate Habort.
Qed.

(** C2, amended.  When the [fetch] promise is still pending as the timeout
    elapses (no response headers, no failure), [controller.abort()] runs
    exactly once and the call fails with status 408.  Once the response has
    arrived in time the timer is cleared and nothing is aborted, however
    long the body takes. *)
Theorem timeout_aborts_unanswered_fetch (timeout : Z) (f : Fetch) :
  unanswered timeout f →
  aborts (request timeout f) = 1 ∧
  result (request timeout f) =
    Throws (Api {| message := JStr "Request timeout"; status := 408;
                   data := None |}) ∧
  actions (request timeout f) = [ArmTimer timeout; CallFetch; Abort; ClearTimer] ∧
  (∀ ms r, (ms < timeout)%Z → aborts (request timeout (Responds ms r)) = 0).
Proof.
  intros Hf.
  assert (Hrun : request timeout f =
            (Throws (Api {| message := JStr "Request timeout"; status := 408;
                            data := None |}),
             [ArmTimer timeout; CallFetch; Abort; ClearTimer])).
  { destruct f as [ms r|ms e|]; cbn in Hf; unfold request, await_fetch;
      [| |reflexivity];
      (destruct (Z.ltb_spec ms timeout); [lia | reflexivity]). }
  rewrite Hrun. repeat split; try reflexivity.
  intros ms r Hms. unfold request. rewrite (request_answered _ _ r Hms).
  destruct r as [code txt [bms text [v|msg]|bms e|]]; run_request;
    destruct (ok _); run_request; try reflexivity.
  all: try (destruct (String.eqb text ""); reflexivity).
  all: try (destruct (getProp v "error"); reflexivity).
  all: destruct e as [name m|]; try reflexivity;
       destruct (String.eqb name "AbortError"); reflexivity.
Qed.

Lemma timeout_aborts_unanswered_fetch_witness :
  unanswered TIMEOUT Hangs ∧
  aborts (request TIMEOUT Hangs) = 1 ∧
  result (request TIMEOUT Hangs) =
    Throws (Api {| message := JStr "Request timeout"; status := 408;
                   data := None |}).
Proof.
  assert (H : unanswered TIMEOUT Hangs) by exact I.
  destruct (timeout_aborts_unanswered_fetch TIMEOUT Hangs H) as (Ha & Hr & _).
  split; [exact H|]. split; [exact Ha | exact Hr].
Defined.

(** C3, at two sample responses.  A 502 with an HTML body fails with
    status 502, but its message is the generic 'Request failed'; the status
    text 'Bad Gateway' is the [detail] of the payload.  A 500 whose body
    never ends does not fail at all: the call stays pending. *)
Lemma unparsed_error_message_is_generic :
  ok badGateway = false ∧
  result (request TIMEOUT (Responds 40 badGateway)) =
    Throws (Api {| message := JStr "Request failed"; status := 502;
                   data := Some (fallbackErrorData badGateway) |}) ∧
  JStr "Request failed" ≠ JStr (statusText badGateway) ∧
  getProp (fallbackErrorData badGateway) "detail" = Some (JStr "Bad Gateway") ∧
  ¬ (∀ ms r bms text msg,
       (ms < TIMEOUT)%Z → ok r = false →
       body r = BodyText bms text (SyntaxError msg) →
       ∃ e, result (request TIMEOUT (Responds ms r)) = Throws (Api e) ∧
            status e = httpStatus r ∧ message e = JStr (statusText r)) ∧
  ok stalledError = false ∧
  result (request TIMEOUT (Responds 40 stalledError)) = Pending.
Proof.
  repeat split; try reflexivity; try discriminate.
  intros H.
  destruct (H 40%Z badGateway 5%Z _ _ eq_refl eq_refl eq_refl) as (e & He & _ & Hm).
  injection He as <-. discriminate Hm.
Qed.

(** A non-2xx response whose body is the JSON text [null]: reading
    [errorData.error] throws inside the [try], and the [catch] block reports
    status 0 instead of 500. *)
Example null_error_body_loses_status :
  result (request TIMEOUT (Responds 40 nullBody)) =
    Throws (Api {| message := JStr "Cannot read properties of null (reading 'error')";
                   status := 0; data := None |}).
Proof. reflexivity. Qed.

(** C3, amended.  For a non-2xx response that arrives in time, whatever its
    body does.  When the body cannot be read or parsed as JSON, the call
    fails with the HTTP status, the generic message 'Request failed' and
    the payload [{error: 'Request failed', detail: statusText}].  When the
    body parses to a value other than [null], the call fails with the HTTP
    status and that value as payload; its message is the payload's [error]
    when that is a non-empty string, and 'Request failed' when it is absent
    or falsy.  When the body never ends, the call stays pending. *)
Theorem http_error_carries_status (timeout ms : Z) (r : Response) :
  (ms < timeout)%Z → ok r = false →
  ((∃ bms text msg, body r = BodyText bms text (SyntaxError msg)) ∨
   (∃ bms e, body r = BodyFails bms e) →
   result (request timeout (Responds ms r)) =
     Throws (Api {| message := JStr "Request failed"; status := httpStatus r;
                    data := Some (fallbackErrorData r) |}) ∧
   getProp (fallbackErrorData r) "detail" = Some (JStr (statusText r))) ∧
  (∀ bms text v err,
     body r = BodyText bms text (ParseOk v) →
     getProp v "error" = Some err →
     ∃ e, result (request timeout (Responds ms r)) = Throws (Api e) ∧
          status e = httpStatus r ∧
          data e = Some v ∧
          (∀ s, err = JStr s →
                message e = JStr (if String.eqb s "" then "Request failed" else s)) ∧
          (truthy err = false → message e = JStr "Request failed")) ∧
  (body r = BodyStalls →
   result (request timeout (Responds ms r)) = Pending).
Proof.
  intros Hms Hok. unfold request. rewrite (request_answered _ _ r Hms).
  split; [|split].
  - intros [(bms & text & msg & Hb) | (bms & e & Hb)];
      (split; [|reflexivity]); run_request; rewrite Hok, Hb; reflexivity.
  - intros bms text v err Hb Herr. eexists. split.
    + run_request. rewrite Hok, Hb. cbn. rewrite Herr. reflexivity.
    + cbn [status data message]. split; [reflexivity|]. split; [reflexivity|].
      unfold js_or. split.
      * intros s ->. cbn [truthy]. by destruct (String.eqb s "").
      * intros ->. reflexivity.
  - intros Hb. run_request. rewrite Hok, Hb. reflexivity.
Qed.

Lemma http_error_carries_status_witness :
  result (request TIMEOUT (Responds 40 badGateway)) =
    Throws (Api {| message := JStr "Request failed"; status := 502;
                   data := Some (fallbackErrorData badGateway) |}) ∧
  (∃ e, result (request TIMEOUT (Responds 40 notFound)) = Throws (Api e) ∧
        status e = 404%Z ∧ message e = JStr "Project not found") ∧
  result (request TIMEOUT (Responds 40 stalledError)) = Pending.
Proof.
  split; [|split].
  - apply (proj1 (http_error_carries_status TIMEOUT 40 badGateway eq_refl eq_refl)).
    left. do 3 eexists. reflexivity.
  - destruct (proj1 (proj2 (http_error_carries_status TIMEOUT 40 notFound
                              eq_refl eq_refl))
                5%Z "{...}" _ (JStr "Project not found") eq_refl eq_refl)
      as (e & He & Hs & _ & Hm & _).
    exists e. split; [exact He|]. split; [exact Hs|].
    exact (Hm "Project not found" eq_refl).
  - exact (proj2 (proj2 (http_error_carries_status TIMEOUT 40 stalledError
                           eq_refl eq_refl)) eq_refl).
Defined.

(** C4.  When [fetch] rejects before the timeout with anything but the
    AbortError of an aborted signal, the call fails with status 0 and
    nothing is aborted; the message is the error's own, or 'Network error'
    for a thrown value that is not an [Error]. *)
Theorem transport_failure_is_status_0 (timeout ms : Z) (e : Thrown) :
  (ms < timeout)%Z →
  (∀ msg, e ≠ ErrorObject "AbortError" msg) →
  result (request timeout (Rejects ms e)) =
    Throws (Api {| message :=
                     JStr match e with
                          | ErrorObject _ msg => msg
                          | NotAnError => "Network error"
                          end;
                   status := 0; data := None |}) ∧
  aborts (request timeout (Rejects ms e)) = 0.
Proof.
  intros Hms Hname. unfold request, await_fetch.
  destruct (Z.ltb_spec ms timeout); [|lia].
  destruct e as [name msg|]; [|split; reflexivity].
  run_request.
  destruct (String.eqb_spec name "AbortError") as [->|_]; [|split; reflexivity].
  destruct (Hname msg eq_refl).
Qed.

Lemma transport_failure_is_status_0_witness :
  result (request TIMEOUT (Rejects 12 connectionRefused)) =
    Throws (Api {| message := JStr "Failed to fetch"; status := 0; data := None |}) ∧
  aborts (request TIMEOUT (Rejects 12 connectionRefused)) = 0.
Proof.
  apply (transport_failure_is_status_0 TIMEOUT 12 connectionRefused eq_refl).
  intros msg H. discriminate H.
Defined.

(** C9.  A 2xx response that arrives in time with an empty body resolves
    the call with the empty object [{}]; nothing is aborted. *)
Theorem empty_body_resolves (timeout ms bms : Z) (r : Response) (parsed : Parsed) :
  (ms < timeout)%Z → ok r = true →
  body r = BodyText bms "" parsed →
  result (request timeout (Responds ms r)) = Returns (JObj ∅) ∧
  aborts (request timeout (Responds ms r)) = 0.
Proof.
  intros Hms Hok Hbody. unfold request. rewrite (request_answered _ _ r Hms).
  run_request. rewrite Hok, Hbody. split; reflexivity.
Qed.

Lemma empty_body_resolves_witness :
  ok noContent = true ∧
  result (request TIMEOUT (Responds 25 noContent)) = Returns (JObj ∅).
Proof.
  split; [reflexivity|].
  exact (proj1 (empty_body_resolves TIMEOUT 25 0 noContent _ eq_refl eq_refl eq_refl)).
Defined.

(** * Further properties of the realtime channel *)

Section ChannelEdges.

Variable WS_URL : string.
Variable WebSocket_throws : string → bool.

Local Abbreviation step := (ExecutionWebSocket.step WS_URL WebSocket_throws).
Local Abbreviation run := (ExecutionWebSocket.run WS_URL WebSocket_throws).
Local Abbreviation connect := (ExecutionWebSocket.connect WS_URL WebSocket_throws).

(** The event handlers leave the state record as a whole alone when they
    change no field. *)
Lemma step_message_exec (sid : nat) (message : jsval) (s : State) :
  enabled (SocketMessage sid (Some message)) s = true →
  exec (step (SocketMessage sid (Some message))) s =
  exec (handleMessage message) s.
Proof.
  intros Hen. unfold ExecutionWebSocket.step, exec, mbind, M_bind, get.
  rewrite Hen. unfold onmessage, mbind, M_bind.
  destruct (handleMessage message s) as [[c s1] t1]. cbn. by rewrite app_nil_r.
Qed.

(** X1.  A frame the router cannot route is dropped: text that is not JSON,
    the JSON value [null], and a frame whose [type] is none of
    'step_complete', 'execution_complete' and 'error' invoke no callback
    and leave every field, socket and timer as it was. *)
Theorem unroutable_frames_are_dropped (s : State) (sid : nat) :
  exec (step (SocketMessage sid None)) s = (s, []) ∧
  exec (step (SocketMessage sid (Some JNull))) s = (s, []) ∧
  ∀ message ty,
    getProp message "type" = Some ty →
    hasType ty "step_complete" = false →
    hasType ty "execution_complete" = false →
    hasType ty "error" = false →
    exec (step (SocketMessage sid (Some message))) s = (s, []).
Proof.
  repeat split.
  - unfold ExecutionWebSocket.step, exec, mbind, M_bind, get.
    destruct (enabled _ s); reflexivity.
  - unfold ExecutionWebSocket.step, exec, mbind, M_bind, get.
    destruct (enabled _ s); reflexivity.
  - intros message ty Hty H1 H2 H3.
    destruct (enabled (SocketMessage sid (Some message)) s) eqn:Hen.
    + rewrite step_message_exec by exact Hen.
      unfold handleMessage, exec. rewrite Hty, H1, H2, H3. reflexivity.
    + unfold ExecutionWebSocket.step, exec, mbind, M_bind, get.
      rewrite Hen. reflexivity.
Qed.

(** X2.  An 'error' frame whose [data] is [null] or absent invokes no
    callback and changes nothing: with [onError] set, reading
    [message.data.message] throws and the handler's [catch] swallows it;
    without [onError] the read is never made. *)
Theorem error_frame_without_payload_is_swallowed
    (s : State) (sid : nat) (message : jsval) :
  getProp message "type" = Some (JStr "error") →
  getProp message "data" = Some JNull ∨ getProp message "data" = Some JUndefined →
  exec (step (SocketMessage sid (Some message))) s = (s, []) ∧
  (∀ f, onError (callbacks s) = Some f →
        (handleMessage message s).1.1 = Abrupt).
Proof.
  intros Hty Hd.
  assert (Hr : getProp (default JUndefined (getProp message "data")) "message" = None)
    by (destruct Hd as [-> | ->]; reflexivity).
  assert (Hm : handleMessage message s =
               (match onError (callbacks s) with Some _ => Abrupt | None => Normal end,
                s, [])).
  { unfold handleMessage. rewrite Hty, Hr. cbn [hasType String.eqb]. cbn.
    unfold mbind, M_bind, get. destruct (onError (callbacks s)); reflexivity. }
  split.
  - destruct (enabled (SocketMessage sid (Some message)) s) eqn:Hen.
    + rewrite step_message_exec by exact Hen. unfold exec. by rewrite Hm.
    + unfold ExecutionWebSocket.step, exec, mbind, M_bind, get.
      rewrite Hen. reflexivity.
  - intros f Hf. rewrite Hm, Hf. reflexivity.
Qed.

(** X3.  Step frames are delivered one callback each, in the order the
    socket receives them, and routing them changes nothing in the channel. *)
Theorem step_frames_are_delivered_in_order
    (s : State) (sid : nat) (f : Handler) (messages : list jsval) :
  enabled (SocketMessage sid None) s = true →
  onStepComplete (callbacks s) = Some f →
  Forall (λ m, getProp m "type" = Some (JStr "step_complete")) messages →
  exec (run (map (λ m, SocketMessage sid (Some m)) messages)) s =
  (s, map (λ m, CallStepComplete f (default JUndefined (getProp m "data")))
          messages).
Proof.
  intros Hen Hf Hall. induction Hall as [|m ms Hm _ IH]; [reflexivity|].
  cbn [map]. rewrite run_cons.
  assert (Hstep : exec (step (SocketMessage sid (Some m))) s =
                  (s, [CallStepComplete f (default JUndefined (getProp m "data"))])).
  { rewrite step_message_exec by exact Hen.
    unfold handleMessage, exec. rewrite Hm. cbn [hasType String.eqb]. cbn.
    unfold notifyStepComplete, mbind, M_bind, get. rewrite Hf. reflexivity. }
  rewrite Hstep. cbn [fst snd]. rewrite IH. reflexivity.
Qed.

(** Without an execution id the channel constructs no socket and arms no
    timer, whatever it is delivered. *)
Lemma step_idle (e : Event) (s : State) :
  truthyId (executionId s) = false → isConnect e = false →
  truthyId (executionId (exec (step e) s).1) = false ∧
  constructed (exec (step e) s).2 = [] ∧
  scheduled (exec (step e) s).2 = [].
Proof.
  destruct s as [w i [c1 c2 c3 c4] n r ks ts]. cbn [executionId].
  intros Hi He.
  destruct e as [sid|sid [m|]|sid|sid|tid|id cbs|]; try discriminate He;
    branch; try (repeat split; first [exact Hi | reflexivity]).
  all: cbn in *; subst; cbn in *; try congruence;
       try (repeat split; first [assumption | reflexivity | congruence]).
  all: repeat match goal with
       | H : negb _ = false, H' : context [negb _] |- _ => rewrite H in H'
       end; discriminate.
Qed.

Lemma run_idle (es : list Event) (s : State) :
  truthyId (executionId s) = false → noConnect es = true →
  constructed (exec (run es) s).2 = [] ∧ scheduled (exec (run es) s).2 = [].
Proof.
  revert s. induction es as [|e es IH]; intros s Hi Hes; [by split|].
  cbn in Hes. apply andb_prop in Hes as [He Hes]. apply negb_true_iff in He.
  destruct (step_idle e s Hi He) as (Hi1 & Hc1 & Hs1).
  destruct (IH _ Hi1 Hes) as [Hc2 Hs2].
  rewrite run_cons; cbn [fst snd].
  rewrite constructed_app, scheduled_app, Hc1, Hs1, Hc2, Hs2. by split.
Qed.

(** X4.  [connect('')] stores the id, the callbacks and a zeroed counter
    but opens nothing: no 'connecting' notification, no socket, the current
    socket handle untouched.  While the id stays empty no event makes the
    channel construct a socket or arm a timer. *)
Theorem connect_with_empty_id_opens_nothing
    (s : State) (cbs : ExecutionWebSocketCallbacks) (es : list Event) :
  noConnect es = true →
  exec (connect "" cbs) s =
    (set_reconnectAttempts 0 (set_callbacks cbs (set_executionId (Some "") s)),
     []) ∧
  constructed (exec (run es) (exec (connect "" cbs) s).1).2 = [] ∧
  scheduled (exec (run es) (exec (connect "" cbs) s).1).2 = [].
Proof.
  intros Hes.
  assert (Hc : exec (connect "" cbs) s =
     (set_reconnectAttempts 0 (set_callbacks cbs (set_executionId (Some "") s)),
      [])) by reflexivity.
  split; [exact Hc|]. rewrite Hc. cbn [fst]. by apply run_idle.
Qed.

(** X5.  When the [WebSocket] constructor throws, [connect] reports
    'connecting', then 'error', then calls [onError] with the
    failed-to-establish message.  No socket is created, the current socket
    handle is the one from before, and no timer is armed: the failure is
    not retried. *)
Theorem constructor_failure_is_reported_not_retried
    (s : State) (id : string) (cbs : ExecutionWebSocketCallbacks)
    (g f : Handler) :
  id ≠ "" →
  WebSocket_throws (WS_URL +:+ EXECUTION_WS id) = true →
  onConnectionChange cbs = Some g →
  onError cbs = Some f →
  exec (connect id cbs) s =
    (set_reconnectAttempts 0 (set_callbacks cbs (set_executionId (Some id) s)),
     [CallConnectionChange g connecting;
      CallConnectionChange g error;
      CallError f (JStr "Failed to establish WebSocket connection")]).
Proof.
  intros Hid Hthrow Hg Hf.
  destruct s as [w i c n r ks ts], cbs as [c1 c2 c3 c4].
  cbn in Hg, Hf. subst c3 c4.
  apply String.eqb_neq in Hid.
  run_methods. rewrite Hid. cbn. rewrite Hthrow. reflexivity.
Qed.

(** X6.  A socket [error] event notifies 'error' and calls [onError] with
    the connection-error message, each if the callback is set, and does
    nothing else: it closes no socket, arms no timer and leaves every
    field as it was. *)
Theorem socket_error_only_notifies (s : State) (sid : nat) :
  enabled (SocketError sid) s = true →
  exec (step (SocketError sid)) s =
  (s, omap id
        [(λ g, CallConnectionChange g error) <$> onConnectionChange (callbacks s);
         (λ f, CallError f (JStr "WebSocket connection error")) <$>
           onError (callbacks s)]).
Proof.
  intros Hen. unfold ExecutionWebSocket.step, exec, mbind, M_bind, get.
  rewrite Hen. destruct s as [w i [c1 c2 [f|] [g|]] n r ks ts]; reflexivity.
Qed.

(** X7.  A socket that opens zeroes the reconnect counter, so the close
    that follows arms the 2000 ms timer of a first attempt whatever the
    counter was before the open. *)
Theorem open_restores_the_reconnect_budget (s : State) (sid sid' : nat) :
  enabled (SocketOpen sid) s = true →
  truthyId (executionId s) = true →
  let s1 := (exec (step (SocketOpen sid)) s).1 in
  reconnectAttempts s1 = 0 ∧
  (enabled (SocketClose sid') s1 = true →
   scheduled (exec (step (SocketClose sid')) s1).2 = [2000%Z] ∧
   reconnectAttempts (exec (step (SocketClose sid')) s1).1 = 1).
Proof.
  intros Hen Hid.
  assert (Hs1 : (exec (step (SocketOpen sid)) s).1 =
                set_reconnectAttempts 0
                  (set_sockets (alter (λ k, {| url := url k; readyState := OPEN |})
                                      sid (sockets s)) s)).
  { unfold ExecutionWebSocket.step, exec, mbind, M_bind, get. rewrite Hen.
    destruct s as [w i [c1 c2 c3 [g|]] n r ks ts]; reflexivity. }
  cbv zeta. rewrite Hs1. split; [reflexivity|]. intros Hen'.
  unfold ExecutionWebSocket.step, exec, mbind, M_bind, get. rewrite Hen'.
  destruct s as [w [id|] [c1 c2 c3 [g|]] n r ks ts]; try discriminate Hid;
    cbn in Hid; run_methods; rewrite Hid; split; reflexivity.
Qed.

(** One event keeps the reconnect counter within its maximum. *)
Lemma step_counter_bound (e : Event) (s : State) :
  reconnectAttempts s ≤ maxReconnectAttempts →
  reconnectAttempts (exec (step e) s).1 ≤ maxReconnectAttempts.
Proof.
  destruct s as [w i [c1 c2 c3 c4] n r ks ts]. cbn [reconnectAttempts].
  unfold maxReconnectAttempts. intros Hn.
  destruct e as [sid|sid [m|]|sid|sid|tid|id cbs|]; branch;
    unfold maxReconnectAttempts; try lia.
  all: match goal with
       | H : _ && (_ <=? _) = true |- _ =>
         apply andb_prop in H as [_ H]; apply Nat.leb_le in H; lia
       end.
Qed.

(** X8.  The reconnect counter never exceeds [maxReconnectAttempts]:
    whatever the sockets, the timers and the caller do, in any order, the
    counter of a channel that starts within the bound stays within it. *)
Theorem reconnect_counter_stays_within_budget (es : list Event) (s : State) :
  reconnectAttempts s ≤ maxReconnectAttempts →
  reconnectAttempts (exec (run es) s).1 ≤ maxReconnectAttempts.
Proof.
  revert s. induction es as [|e es IH]; intros s Hn; [exact Hn|].
  rewrite run_cons; cbn [fst]. apply IH, step_counter_bound, Hn.
Qed.

(** One event, other than a [connect], calls only functions of the current
    callback set, and leaves that set as it is or empties it. *)
Lemma step_invokes_current (e : Event) (s : State) :
  isConnect e = false →
  (callbacks (exec (step e) s).1 = callbacks s ∨
   callbacks (exec (step e) s).1 = noCallbacks) ∧
  Forall (λ x, ∀ f, invoked x = Some f → f ∈ handlers (callbacks s))
         (exec (step e) s).2.
Proof.
  destruct s as [w i [c1 c2 c3 c4] n r ks ts]. intros He.
  destruct e as [sid|sid [m|]|sid|sid|tid|id cbs|]; try discriminate He;
    branch; (split; [auto|]).
  all: repeat (apply Forall_cons_2; [cbn; intros ? [= <-]; set_solver|]);
       apply Forall_nil_2.
Qed.

Lemma run_invokes_current (es : list Event) (s : State) :
  noConnect es = true →
  Forall (λ x, ∀ f, invoked x = Some f → f ∈ handlers (callbacks s))
         (exec (run es) s).2.
Proof.
  revert s. induction es as [|e es IH]; intros s Hes; [constructor|].
  cbn in Hes. apply andb_prop in Hes as [He Hes]. apply negb_true_iff in He.
  rewrite run_cons; cbn [snd]. apply Forall_app.
  destruct (step_invokes_current e s He) as [Hc Ht]. split; [exact Ht|].
  specialize (IH (exec (step e) s).1 Hes).
  destruct Hc as [Hc | Hc]; rewrite Hc in IH; [exact IH|].
  eapply Forall_impl; [exact IH|].
  cbn. intros x Hx f Hf. specialize (Hx f Hf). set_solver.
Qed.

(** X9.  From a [connect(id, cbs)] until the next [connect], every callback
    the channel invokes is one of the functions of [cbs]: the callbacks of
    an earlier subscription are never called again, whichever socket or
    timer the event comes from. *)
Theorem only_the_current_callbacks_are_invoked
    (s : State) (id : string) (cbs : ExecutionWebSocketCallbacks)
    (es : list Event) :
  noConnect es = true →
  Forall (λ x, ∀ f, invoked x = Some f → f ∈ handlers cbs)
         (exec (run (Connect id cbs :: es)) s).2.
Proof.
  intros Hes. rewrite run_cons; cbn [snd]. apply Forall_app.
  assert (Hstep : exec (step (Connect id cbs)) s = exec (connect id cbs) s).
  { unfold ExecutionWebSocket.step, exec, mbind, M_bind, get. cbn [enabled].
    destruct (connect id cbs s) as [[[] s1] t1]. reflexivity. }
  rewrite Hstep.
  destruct (connect_effect WS_URL WebSocket_throws s id cbs) as [Hc _].
  split.
  - destruct s as [w i c n r ks ts], cbs as [c1 c2 c3 c4].
    branch;
      repeat (apply Forall_cons_2; [cbn; intros ? [= <-]; set_solver|]);
      apply Forall_nil_2.
  - pose proof (run_invokes_current es (exec (connect id cbs) s).1 Hes) as H.
    rewrite Hc in H. exact H.
Qed.

(** X10.  [disconnect()] invokes no callback, not even
    [onConnectionChange], and a second [disconnect()] does nothing at all:
    it closes nothing, clears nothing and leaves the state as the first
    one left it. *)
Theorem disconnect_is_silent_and_idempotent (s : State) :
  omap invoked (exec disconnect s).2 = [] ∧
  exec disconnect (exec disconnect s).1 = ((exec disconnect s).1, []).
Proof.
  destruct s as [w i c n [tid|] ks ts]; destruct w; split; reflexivity.
Qed.

(** X11.  When a reconnect timer fires with an execution id still set, the
    channel notifies 'connecting' and constructs one socket to
    [WS_URL/ws/execution/<that id>], which becomes the current socket; the
    id and the reconnect counter are as before the attempt. *)
Theorem reconnect_targets_the_same_execution
    (s : State) (tid : nat) (eid : string) :
  enabled (TimerFired tid) s = true →
  executionId s = Some eid →
  eid ≠ "" →
  WebSocket_throws (WS_URL +:+ EXECUTION_WS eid) = false →
  let s' := (exec (step (TimerFired tid)) s).1 in
  let t := (exec (step (TimerFired tid)) s).2 in
  t = omap id [(λ g, CallConnectionChange g connecting) <$>
                 onConnectionChange (callbacks s);
               Some (NewWebSocket (length (sockets s))
                       (WS_URL +:+ "/ws/execution/" +:+ eid))] ∧
  ws s' = Some (length (sockets s)) ∧
  sockets s' =
    sockets s ++ [{| url := WS_URL +:+ "/ws/execution/" +:+ eid;
                     readyState := CONNECTING |}] ∧
  executionId s' = Some eid ∧
  reconnectAttempts s' = reconnectAttempts s.
Proof.
  intros Hen Hid Hne Hok. cbv zeta.
  assert (Hx : exec (step (TimerFired tid)) s =
    (set_ws (Some (length (sockets s)))
       (set_sockets (sockets s ++ [{| url := WS_URL +:+ "/ws/execution/" +:+ eid;
                                      readyState := CONNECTING |}])
          (set_timers (alter cancelled tid (timers s)) s)),
     omap id [(λ g, CallConnectionChange g connecting) <$>
                 onConnectionChange (callbacks s);
               Some (NewWebSocket (length (sockets s))
                       (WS_URL +:+ "/ws/execution/" +:+ eid))])).
  { unfold ExecutionWebSocket.step, exec, mbind, M_bind, get. rewrite Hen.
    apply String.eqb_neq in Hne. change ("/ws/execution/" +:+ eid) with (EXECUTION_WS eid).
    destruct s as [w i [c1 c2 c3 [g|]] n r ks ts]; cbn in Hid; subst i;
      cbv [expire establishConnection notifyConnectionChange newWebSocket
           mbind M_bind mret M_ret get modify emit set_timers set_sockets set_ws
           executionId callbacks onConnectionChange timers sockets truthyId
           default from_option id fst snd];
      rewrite Hne; cbv [negb]; rewrite Hok; reflexivity. }
  rewrite Hx. repeat split; try reflexivity. exact Hid.
Qed.

(** X12.  [isConnected] follows the current socket: it is false after
    [disconnect()], false right after a [connect] that constructed a socket
    (the socket is still CONNECTING), true once the current socket has
    opened, and false again once the current socket has closed. *)
Theorem isConnected_follows_the_current_socket :
  (∀ s, isConnected (exec disconnect s).1 = false) ∧
  (∀ s eid cbs,
     eid ≠ "" → WebSocket_throws (WS_URL +:+ EXECUTION_WS eid) = false →
     isConnected (exec (connect eid cbs) s).1 = false ∧
     currentExecutionId (exec (connect eid cbs) s).1 = Some eid) ∧
  (∀ s sid,
     ws s = Some sid → enabled (SocketOpen sid) s = true →
     isConnected (exec (step (SocketOpen sid)) s).1 = true) ∧
  (∀ s sid,
     ws s = Some sid → enabled (SocketClose sid) s = true →
     isConnected (exec (step (SocketClose sid)) s).1 = false).
Proof.
  split; [|split; [|split]].
  - intros [w i c n [tid|] ks ts]; destruct w; reflexivity.
  - intros [w i c n r ks ts] eid [c1 c2 c3 [g|]] Hne Hok;
      apply String.eqb_neq in Hne;
      cbv [ExecutionWebSocket.connect establishConnection notifyConnectionChange
           newWebSocket exec mbind M_bind mret M_ret get modify emit
           set_ws set_executionId set_callbacks set_reconnectAttempts set_sockets
           executionId callbacks onConnectionChange sockets truthyId
           default from_option id fst snd];
      rewrite Hne; cbv [negb]; rewrite Hok;
      unfold isConnected, currentExecutionId; cbn [ws sockets executionId];
      rewrite list_lookup_middle by reflexivity; split; reflexivity.
  - intros s sid Hw Hen.
    assert (Hs1 : ws (exec (step (SocketOpen sid)) s).1 = ws s ∧
                  sockets (exec (step (SocketOpen sid)) s).1 =
                  alter (λ k, {| url := url k; readyState := OPEN |}) sid (sockets s)).
    { unfold ExecutionWebSocket.step, exec, mbind, M_bind, get. rewrite Hen.
      destruct s as [w i [c1 c2 c3 [g|]] n r ks ts]; split; reflexivity. }
    destruct Hs1 as [Hw1 Hk1]. unfold isConnected. rewrite Hw1, Hw, Hk1.
    rewrite list_lookup_alter_eq.
    unfold enabled, socketIn in Hen.
    destruct (sockets s !! sid) as [k|]; [reflexivity | discriminate].
  - intros s sid Hw Hen.
    assert (Hs1 : ws (exec (step (SocketClose sid)) s).1 = ws s ∧
                  sockets (exec (step (SocketClose sid)) s).1 =
                  alter (λ k, {| url := url k; readyState := CLOSED |}) sid (sockets s)).
    { unfold ExecutionWebSocket.step, exec, mbind, M_bind, get. rewrite Hen.
      destruct s as [w i [c1 c2 c3 [g|]] n r ks ts];
        cbv [setReadyState onclose handleDisconnect notifyConnectionChange
             setTimeout mbind M_bind mret M_ret get modify emit
             set_sockets set_timers set_reconnectAttempts set_reconnectTimeout
             executionId callbacks onConnectionChange sockets timers
             reconnectAttempts fst snd];
        destruct (truthyId i && (n <? maxReconnectAttempts)); split; reflexivity. }
    destruct Hs1 as [Hw1 Hk1]. unfold isConnected. rewrite Hw1, Hw, Hk1.
    rewrite list_lookup_alter_eq.
    destruct (sockets s !! sid) as [k|]; reflexivity.
Qed.

End ChannelEdges.

Lemma unroutable_frames_are_dropped_witness :
  exec (step localhost accepts (SocketMessage 0 (Some heartbeat))) subscribed =
  (subscribed, []).
Proof.
  exact (proj2 (proj2 (unroutable_frames_are_dropped localhost accepts subscribed 0))
           heartbeat (JStr "ping") eq_refl eq_refl eq_refl eq_refl).
Defined.

Lemma error_frame_without_payload_is_swallowed_witness :
  exec (step localhost accepts
          (SocketMessage 0 (Some (frame "error" "exec-42" JNull)))) subscribed =
  (subscribed, []) ∧
  (handleMessage (frame "error" "exec-42" JNull) subscribed).1.1 = Abrupt.
Proof.
  destruct (error_frame_without_payload_is_swallowed localhost accepts subscribed 0
              (frame "error" "exec-42" JNull) eq_refl (or_introl eq_refl))
    as [Hstep Hthrow].
  split; [exact Hstep | exact (Hthrow 13 eq_refl)].
Defined.

Lemma step_frames_are_delivered_in_order_witness :
  exec (run localhost accepts
          [SocketMessage 0 (Some (frame "step_complete" "exec-42" (stepPayload 1)));
           SocketMessage 0 (Some (frame "step_complete" "exec-42" (stepPayload 2)))])
       subscribed =
  (subscribed, [CallStepComplete 11 (stepPayload 1);
                CallStepComplete 11 (stepPayload 2)]).
Proof.
  apply (step_frames_are_delivered_in_order localhost accepts subscribed 0 11
           [frame "step_complete" "exec-42" (stepPayload 1);
            frame "step_complete" "exec-42" (stepPayload 2)]);
    [reflexivity | reflexivity | repeat constructor].
Defined.

Lemma connect_with_empty_id_opens_nothing_witness :
  (exec (connect localhost accepts "" secondCallbacks) subscribed).2 = [] ∧
  constructed (exec (run localhost accepts [SocketClose 0; TimerFired 0])
     (exec (connect localhost accepts "" secondCallbacks) subscribed).1).2 = [].
Proof.
  destruct (connect_with_empty_id_opens_nothing localhost accepts subscribed
              secondCallbacks [SocketClose 0; TimerFired 0] eq_refl)
    as (Hc & Hn & _).
  split; [rewrite Hc; reflexivity | exact Hn].
Defined.

Lemma constructor_failure_is_reported_not_retried_witness :
  (exec (connect localhost rejects "exec-42" firstCallbacks) initial).2 =
    [CallConnectionChange 14 connecting; CallConnectionChange 14 error;
     CallError 13 (JStr "Failed to establish WebSocket connection")] ∧
  sockets (exec (connect localhost rejects "exec-42" firstCallbacks) initial).1 = [] ∧
  timers (exec (connect localhost rejects "exec-42" firstCallbacks) initial).1 = [].
Proof.
  assert (Hne : "exec-42" ≠ "") by discriminate.
  rewrite (constructor_failure_is_reported_not_retried localhost rejects initial
             "exec-42" firstCallbacks 14 13 Hne eq_refl eq_refl eq_refl).
  repeat split.
Defined.

Lemma socket_error_only_notifies_witness :
  exec (step localhost accepts (SocketError 0)) subscribed =
  (subscribed, [CallConnectionChange 14 error;
                CallError 13 (JStr "WebSocket connection error")]).
Proof.
  exact (socket_error_only_notifies localhost accepts subscribed 0 eq_refl).
Defined.

Lemma open_restores_the_reconnect_budget_witness :
  reconnectAttempts (exec (step localhost accepts (SocketOpen 0)) dialing).1 = 0 ∧
  scheduled (exec (step localhost accepts (SocketClose 0))
               (exec (step localhost accepts (SocketOpen 0)) dialing).1).2 =
    [2000%Z].
Proof.
  destruct (open_restores_the_reconnect_budget localhost accepts dialing 0 0
              eq_refl eq_refl) as [H0 Hclose].
  split; [exact H0 | exact (proj1 (Hclose eq_refl))].
Defined.

Lemma reconnect_counter_stays_within_budget_witness :
  reconnectAttempts (exec (run localhost accepts failedStreak) subscribed).1 ≤
  maxReconnectAttempts.
Proof.
  apply (reconnect_counter_stays_within_budget localhost accepts failedStreak
           subscribed).
  vm_compute. repeat constructor.
Defined.

Lemma only_the_current_callbacks_are_invoked_witness :
  Forall (λ x, ∀ f, invoked x = Some f → f ∈ handlers secondCallbacks)
    (exec (run localhost accepts
             (Connect "exec-2" secondCallbacks ::
              [SocketMessage 0 (Some (frame "step_complete" "exec-42" (stepPayload 7)));
               SocketClose 0]))
          subscribed).2.
Proof.
  exact (only_the_current_callbacks_are_invoked localhost accepts subscribed
           "exec-2" secondCallbacks
           [SocketMessage 0 (Some (frame "step_complete" "exec-42" (stepPayload 7)));
            SocketClose 0]
           eq_refl).
Defined.

Lemma reconnect_targets_the_same_execution_witness :
  ws (exec (step localhost accepts (TimerFired 0)) waiting).1 = Some 1 ∧
  url <$> sockets (exec (step localhost accepts (TimerFired 0)) waiting).1 !! 1 =
    Some "ws://localhost:8000/ws/execution/exec-42".
Proof.
  assert (Hne : "exec-42" ≠ "") by discriminate.
  destruct (reconnect_targets_the_same_execution localhost accepts waiting 0
              "exec-42" eq_refl eq_refl Hne eq_refl) as (_ & Hw & Hs & _).
  split; [exact Hw | rewrite Hs; reflexivity].
Defined.

Lemma isConnected_follows_the_current_socket_witness :
  isConnected dialing = false ∧
  isConnected (exec (step localhost accepts (SocketOpen 0)) dialing).1 = true ∧
  isConnected (exec (step localhost accepts (SocketClose 0)) subscribed).1 = false.
Proof.
  assert (Hne : "exec-42" ≠ "") by discriminate.
  pose proof (isConnected_follows_the_current_socket localhost accepts)
    as (_ & Hc & Ho & Hx).
  split; [exact (proj1 (Hc initial "exec-42" firstCallbacks Hne eq_refl))|].
  split; [exact (Ho dialing 0 eq_refl eq_refl) | exact (Hx subscribed 0 eq_refl eq_refl)].
Defined.

(** * Further properties of the request client *)

(** Case analysis on everything [request] branches on. *)
Ltac request_cases f :=
  let ms := fresh "ms" in
  let text := fresh "text" in
  destruct f as [ms [? ? [? text [?|?]|? [? ?|]|]]|ms [? ?|]|];
  unfold request, await_fetch;
  try destruct (Z.ltb_spec ms _);
  run_request;
  repeat match goal with
         | |- context [if ?b then _ else _] => destruct b eqn:?; run_request
         | |- context [match getProp ?v ?k with _ => _ end] =>
           destruct (getProp v k) eqn:?; run_request
         end.

(** X14.  [request] has one failure type: whatever the transport does, the
    call never rejects with a raw runtime error.  Every rejection is an
    [ApiRequestError] whose status is 408, 0, or the status of a non-2xx
    response that arrived in time. *)
Theorem request_rejects_only_with_ApiRequestError (timeout : Z) (f : Fetch) :
  match result (request timeout f) with
  | Throws (Runtime _) => False
  | Throws (Api e) =>
    status e = 408%Z ∨ status e = 0%Z ∨
    ∃ ms r, f = Responds ms r ∧ (ms < timeout)%Z ∧ ok r = false ∧
            status e = httpStatus r
  | _ => True
  end.
Proof.
  unfold result. request_cases f; auto.
  all: right; right; do 2 eexists; split; [reflexivity|];
       split; [by apply Z.ltb_lt|]; split; [|reflexivity];
       match goal with H : negb _ = true |- _ => by apply negb_true_iff in H end.
Qed.

(** X15.  On every path [request] arms the timer first and clears it last,
    also when the body never arrives.  [controller.abort()] runs at most
    once, and only a call that fails with the 408 'Request timeout' has run
    it. *)
Theorem request_always_clears_its_timer (timeout : Z) (f : Fetch) :
  head (actions (request timeout f)) = Some (ArmTimer timeout) ∧
  last (actions (request timeout f)) = Some ClearTimer ∧
  (aborts (request timeout f) = 0 ∨
   aborts (request timeout f) = 1 ∧
   result (request timeout f) =
     Throws (Api {| message := JStr "Request timeout"; status := 408;
                    data := None |})).
Proof.
  set (P := λ t : Task jsval,
         head (actions t) = Some (ArmTimer timeout) ∧
         last (actions t) = Some ClearTimer ∧
         (aborts t = 0 ∨
          aborts t = 1 ∧
          result t = Throws (Api {| message := JStr "Request timeout";
                                    status := 408; data := None |}))).
  change (P (request timeout f)).
  request_cases f; subst P; cbn; repeat split; auto.
Qed.

(** X16.  A 2xx response that arrives in time with a non-empty body
    resolves with the parsed JSON; when the body is not JSON the call fails
    with status 0 and the parser's message, as a network failure would. *)
Theorem success_body_is_parsed_or_status_0
    (timeout ms bms : Z) (r : Response) (text : string) :
  (ms < timeout)%Z → ok r = true → text ≠ "" →
  (∀ v, body r = BodyText bms text (ParseOk v) →
        result (request timeout (Responds ms r)) = Returns v) ∧
  (∀ msg, body r = BodyText bms text (SyntaxError msg) →
        result (request timeout (Responds ms r)) =
          Throws (Api {| message := JStr msg; status := 0; data := None |}) ∧
        ∀ e, result (request timeout (Responds ms r)) = Throws (Api e) →
             isNetworkError e = true).
Proof.
  intros Hms Hok Htext. apply String.eqb_neq in Htext.
  split.
  - intros v Hb. unfold request. rewrite (request_answered _ _ r Hms).
    run_request. rewrite Hok, Hb. cbn. rewrite Htext. reflexivity.
  - intros msg Hb.
    assert (Hr : result (request timeout (Responds ms r)) =
                 Throws (Api {| message := JStr msg; status := 0; data := None |})).
    { unfold request. rewrite (request_answered _ _ r Hms).
      run_request. rewrite Hok, Hb. cbn. rewrite Htext. reflexivity. }
    split; [exact Hr|]. intros e He. rewrite Hr in He.
    injection He as <-. reflexivity.
Qed.

(** X17.  The four getters of [ApiRequestError] never overlap: an error is
    at most one of network error, timeout, not found and server error. *)
Theorem error_getters_are_exclusive (e : ApiRequestError) :
  Nat.b2n (isNetworkError e) + Nat.b2n (isTimeout e) +
  Nat.b2n (isNotFound e) + Nat.b2n (isServerError e) ≤ 1.
Proof.
  unfold isNetworkError, isTimeout, isNotFound, isServerError.
  destruct (Z.eqb_spec (status e) 0), (Z.eqb_spec (status e) 408),
    (Z.eqb_spec (status e) 404), (Z.leb_spec 500 (status e)); cbn; lia.
Qed.

(** An appended string is empty only when both parts are. *)
Lemma append_empty (a b : string) : a +:+ b = "" → a = "" ∧ b = "".
Proof. destruct a; cbn; [auto | discriminate]. Qed.

Lemma set_not_empty (name value : string) (ps : URLSearchParams) :
  set name value ps ≠ [].
Proof. destruct ps as [|[n v] rest]; cbn; [|destruct (String.eqb n name)]; discriminate. Qed.

Lemma toString_empty (encode : string → string) (ps : URLSearchParams) :
  toString encode ps = "" → ps = [].
Proof.
  destruct ps as [|[n v] rest]; [reflexivity|]. unfold toString.
  cbn [map join fst snd].
  assert (Hpair : encode n +:+ "=" +:+ encode v ≠ "")
    by (intros H; apply append_empty in H as [_ H]; discriminate H).
  destruct (map _ rest); intros H; [contradiction|].
  apply append_empty in H as [H _]. contradiction.
Qed.

(** X18.  The history endpoint carries only the filters that are truthy.
    Without parameters, or with every filter absent, empty or zero, it is
    exactly [/executions]; a limit or an offset of 0 is dropped like an
    absent one; and as soon as one filter is truthy the endpoint is
    [/executions?] followed by a non-empty query.  [getTestCases] with no
    project id, or an empty one, requests exactly [/scripts/test-cases]. *)
Theorem falsy_filters_are_left_out
    (encode : string → string) (numberToString : Z → string) :
  getExecutionHistory_endpoint encode numberToString None = "/executions" ∧
  (∀ p,
     truthyString (HistoryParams.project_id p) = false →
     truthyString (HistoryParams.status p) = false →
     truthyNumber (HistoryParams.limit p) = false →
     truthyNumber (HistoryParams.offset p) = false →
     getExecutionHistory_endpoint encode numberToString (Some p) = "/executions") ∧
  (∀ project status,
     getExecutionHistory_endpoint encode numberToString
       (Some {| HistoryParams.project_id := project; HistoryParams.status := status;
                HistoryParams.limit := Some 0%Z; HistoryParams.offset := Some 0%Z |}) =
     getExecutionHistory_endpoint encode numberToString
       (Some {| HistoryParams.project_id := project; HistoryParams.status := status;
                HistoryParams.limit := None; HistoryParams.offset := None |})) ∧
  (∀ p,
     truthyString (HistoryParams.project_id p) ||
     truthyString (HistoryParams.status p) ||
     truthyNumber (HistoryParams.limit p) ||
     truthyNumber (HistoryParams.offset p) = true →
     ∃ query, query ≠ "" ∧
       getExecutionHistory_endpoint encode numberToString (Some p) =
       "/executions?" +:+ query) ∧
  getTestCases_endpoint None = "/scripts/test-cases" ∧
  getTestCases_endpoint (Some "") = "/scripts/test-cases".
Proof.
  split; [reflexivity|]. split; [|split; [reflexivity|split; [|split; reflexivity]]].
  - intros [project status limit offset]; cbn. intros H1 H2 H3 H4.
    unfold getExecutionHistory_endpoint, getExecutionHistory_searchParams.
    cbn. rewrite H1, H2, H3, H4. reflexivity.
  - intros [project status limit offset]; cbn. intros Hany.
    unfold getExecutionHistory_endpoint.
    set (sp := getExecutionHistory_searchParams numberToString _).
    assert (Hsp : sp ≠ []).
    { subst sp. unfold getExecutionHistory_searchParams. cbn.
      destruct (truthyNumber offset); [apply set_not_empty|].
      destruct (truthyNumber limit); [apply set_not_empty|].
      destruct (truthyString status); [apply set_not_empty|].
      destruct (truthyString project); [discriminate | discriminate Hany]. }
    exists (toString encode sp).
    assert (Hq : toString encode sp ≠ "")
      by (intros Hq; apply Hsp, (toString_empty encode), Hq).
    split; [exact Hq|]. apply String.eqb_neq in Hq. rewrite Hq. reflexivity.
Qed.

Lemma falsy_filters_are_left_out_witness :
  getExecutionHistory_endpoint (λ x, x) (λ _, "20")
    (Some {| HistoryParams.project_id := Some ""; HistoryParams.status := None;
             HistoryParams.limit := Some 0%Z; HistoryParams.offset := None |}) =
  "/executions" ∧
  ∃ query, query ≠ "" ∧
    getExecutionHistory_endpoint (λ x, x) (λ _, "20")
      (Some {| HistoryParams.project_id := None; HistoryParams.status := Some "FAIL";
               HistoryParams.limit := Some 20%Z; HistoryParams.offset := Some 0%Z |}) =
    "/executions?" +:+ query.
Proof.
  pose proof (falsy_filters_are_left_out (λ x, x) (λ _, "20")) as (_ & H0 & _ & H1 & _).
  split.
  - apply H0; reflexivity.
  - apply H1. reflexivity.
Defined.

Lemma success_body_is_parsed_or_status_0_witness :
  result (request TIMEOUT (Responds 30 emptyList)) = Returns (JArr []) ∧
  result (request TIMEOUT (Responds 30 htmlPage)) =
    Throws (Api {| message := JStr "Unexpected token '<'"; status := 0;
                   data := None |}).
Proof.
  assert (H1 : "[]" ≠ "") by discriminate.
  assert (H2 : "<!doctype html>" ≠ "") by discriminate.
  split.
  - exact (proj1 (success_body_is_parsed_or_status_0 TIMEOUT 30 2 emptyList "[]"
                    eq_refl eq_refl H1) (JArr []) eq_refl).
  - exact (proj1 (proj2 (success_body_is_parsed_or_status_0 TIMEOUT 30 2 htmlPage
                    "<!doctype html>" eq_refl eq_refl H2)
                    "Unexpected token '<'" eq_refl)).
Defined.

(** * Properties of the hook *)

Section HookFacts.

Variable WS_URL : string.
Variable WebSocket_throws : string → bool.
Variable options : UseExecutionWebSocket.Options.

Local Abbreviation happen :=
  (UseExecutionWebSocket.happen WS_URL WebSocket_throws options).
Local Abbreviation happenAll :=
  (UseExecutionWebSocket.happenAll WS_URL WebSocket_throws options).

(** A step frame on an open socket, as one event of the channel. *)
Lemma step_frame_exec (sid : nat) (m : jsval) (s : State) (f : Handler) :
  enabled (SocketMessage sid None) s = true →
  onStepComplete (callbacks s) = Some f →
  getProp m "type" = Some (JStr "step_complete") →
  exec (ExecutionWebSocket.step WS_URL WebSocket_throws (SocketMessage sid (Some m))) s =
  (s, [CallStepComplete f (default JUndefined (getProp m "data"))]).
Proof.
  intros Hen Hf Hm.
  unfold ExecutionWebSocket.step, exec, mbind, M_bind, get.
  change (enabled (SocketMessage sid (Some m)) s) with (enabled (SocketMessage sid None) s).
  rewrite Hen. unfold onmessage, handleMessage, mbind, M_bind. rewrite Hm.
  cbn [hasType String.eqb]. cbn.
  unfold notifyStepComplete, mbind, M_bind, get. rewrite Hf. reflexivity.
Qed.

(** X19.  While the hook's closures are the channel's callbacks, the step
    frames an open socket receives are appended to [steps] in the order
    received and forwarded, in that order, to the component's
    [onStepComplete]; status, result, error and the channel are untouched. *)
Theorem hook_collects_steps_in_order
    (sys : UseExecutionWebSocket.System) (sid : nat) (messages : list jsval) :
  callbacks (UseExecutionWebSocket.channel sys) = UseExecutionWebSocket.closures →
  enabled (SocketMessage sid None) (UseExecutionWebSocket.channel sys) = true →
  Forall (λ m, getProp m "type" = Some (JStr "step_complete")) messages →
  let payloads := map (λ m, default JUndefined (getProp m "data")) messages in
  happenAll
    (map (λ m, UseExecutionWebSocket.Delivered (SocketMessage sid (Some m))) messages)
    sys =
  ({| UseExecutionWebSocket.hook :=
        {| UseExecutionWebSocket.status :=
             UseExecutionWebSocket.status (UseExecutionWebSocket.hook sys);
           UseExecutionWebSocket.steps :=
             UseExecutionWebSocket.steps (UseExecutionWebSocket.hook sys) ++ payloads;
           UseExecutionWebSocket.result :=
             UseExecutionWebSocket.result (UseExecutionWebSocket.hook sys);
           UseExecutionWebSocket.error :=
             UseExecutionWebSocket.error (UseExecutionWebSocket.hook sys);
           UseExecutionWebSocket.executionId :=
             UseExecutionWebSocket.executionId (UseExecutionWebSocket.hook sys) |};
      UseExecutionWebSocket.channel := UseExecutionWebSocket.channel sys |},
   match UseExecutionWebSocket.onStepComplete options with
   | Some g => map (CallStepComplete g) payloads
   | None => []
   end).
Proof.
  intros Hc Hen Hall. cbv zeta. revert sys Hc Hen.
  induction Hall as [|m ms Hm _ IH]; intros [[st sts res err eid] ch] Hc Hen;
    cbn in Hc, Hen.
  - cbn. rewrite app_nil_r. by destruct (UseExecutionWebSocket.onStepComplete options).
  - cbn [map UseExecutionWebSocket.happenAll UseExecutionWebSocket.happen
         UseExecutionWebSocket.channel UseExecutionWebSocket.hook].
    rewrite (step_frame_exec sid m ch UseExecutionWebSocket.stepClosure Hen
               ltac:(rewrite Hc; reflexivity) Hm).
    cbn [UseExecutionWebSocket.deliverAll UseExecutionWebSocket.deliver
         UseExecutionWebSocket.stepClosure Nat.eqb].
    rewrite (IH {| UseExecutionWebSocket.hook := _;
                   UseExecutionWebSocket.channel := ch |} Hc Hen).
    cbn. rewrite <- app_assoc. cbn.
    by destruct (UseExecutionWebSocket.onStepComplete options).
Qed.

(** With a quiet channel, what the runtime delivers passes the hook by. *)
Lemma happenAll_quiet (es : list Event) (sys : UseExecutionWebSocket.System) :
  quiet (UseExecutionWebSocket.channel sys) → noConnect es = true →
  UseExecutionWebSocket.hook
    (happenAll (map UseExecutionWebSocket.Delivered es) sys).1 =
    UseExecutionWebSocket.hook sys ∧
  (happenAll (map UseExecutionWebSocket.Delivered es) sys).2 = [].
Proof.
  revert sys. induction es as [|e es IH]; intros [h ch] Hq Hes; [by split|].
  cbn in Hq, Hes. apply andb_prop in Hes as [He Hes]. apply negb_true_iff in He.
  destruct (step_quiet WS_URL WebSocket_throws e ch Hq He) as [Hq1 Ht1].
  cbn [map UseExecutionWebSocket.happenAll UseExecutionWebSocket.happen
       UseExecutionWebSocket.channel UseExecutionWebSocket.hook].
  destruct (exec (ExecutionWebSocket.step WS_URL WebSocket_throws e) ch)
    as [ch1 t1] eqn:Hstep.
  cbn [fst snd] in Hq1, Ht1. subst t1.
  cbn [UseExecutionWebSocket.deliverAll].
  specialize (IH {| UseExecutionWebSocket.hook := h;
                    UseExecutionWebSocket.channel := ch1 |} Hq1 Hes).
  destruct (happenAll _ _) as [sys2 out2]. exact IH.
Qed.

(** X20.  A completion frame stores the result in the hook and forwards it
    to the component, and leaves the hook's status where it was: the
    channel disconnects itself with its callbacks already emptied, so no
    'disconnected' reaches the hook.  Whatever the runtime delivers
    afterwards changes nothing in the hook and forwards nothing, while the
    channel itself reports not connected. *)
Theorem hook_keeps_its_status_after_completion
    (sys : UseExecutionWebSocket.System) (sid : nat) (m data : jsval)
    (es : list Event) :
  callbacks (UseExecutionWebSocket.channel sys) = UseExecutionWebSocket.closures →
  enabled (SocketMessage sid None) (UseExecutionWebSocket.channel sys) = true →
  getProp m "type" = Some (JStr "execution_complete") →
  getProp m "data" = Some data →
  noConnect es = true →
  let completed :=
    happen (UseExecutionWebSocket.Delivered (SocketMessage sid (Some m))) sys in
  let later := happenAll (map UseExecutionWebSocket.Delivered es) completed.1 in
  UseExecutionWebSocket.hook completed.1 =
    {| UseExecutionWebSocket.status :=
         UseExecutionWebSocket.status (UseExecutionWebSocket.hook sys);
       UseExecutionWebSocket.steps :=
         UseExecutionWebSocket.steps (UseExecutionWebSocket.hook sys);
       UseExecutionWebSocket.result := Some data;
       UseExecutionWebSocket.error :=
         UseExecutionWebSocket.error (UseExecutionWebSocket.hook sys);
       UseExecutionWebSocket.executionId :=
         UseExecutionWebSocket.executionId (UseExecutionWebSocket.hook sys) |} ∧
  completed.2 =
    UseExecutionWebSocket.forward
      (UseExecutionWebSocket.onExecutionComplete options)
      (λ g, CallExecutionComplete g data) ∧
  ExecutionWebSocket.isConnected (UseExecutionWebSocket.channel completed.1) = false ∧
  UseExecutionWebSocket.hook later.1 = UseExecutionWebSocket.hook completed.1 ∧
  later.2 = [].
Proof.
  intros Hc Hen Hty Hd Hes. cbv zeta.
  destruct sys as [[st sts res err eid] ch].
  cbn [UseExecutionWebSocket.channel] in Hc, Hen.
  assert (Hstep :
    exec (ExecutionWebSocket.step WS_URL WebSocket_throws (SocketMessage sid (Some m))) ch =
    exec (notifyExecutionComplete data;; disconnect) ch).
  { rewrite (step_message_exec WS_URL WebSocket_throws sid m ch Hen).
    unfold exec at 1. by rewrite (handleMessage_complete m data ch Hty Hd). }
  assert (Hq : quiet (exec (notifyExecutionComplete data;; disconnect) ch).1).
  { unfold exec, mbind, M_bind.
    destruct (notifyExecutionComplete data ch) as [[[] s1] t1].
    pose proof (disconnect_quiet s1) as Hq1. unfold exec in Hq1.
    destruct (disconnect s1) as [[[] s2] t2]. exact Hq1. }
  assert (Hhook :
    UseExecutionWebSocket.happen WS_URL WebSocket_throws options
      (UseExecutionWebSocket.Delivered (SocketMessage sid (Some m)))
      {| UseExecutionWebSocket.hook :=
           {| UseExecutionWebSocket.status := st; UseExecutionWebSocket.steps := sts;
              UseExecutionWebSocket.result := res; UseExecutionWebSocket.error := err;
              UseExecutionWebSocket.executionId := eid |};
         UseExecutionWebSocket.channel := ch |} =
    ({| UseExecutionWebSocket.hook :=
          {| UseExecutionWebSocket.status := st; UseExecutionWebSocket.steps := sts;
             UseExecutionWebSocket.result := Some data;
             UseExecutionWebSocket.error := err;
             UseExecutionWebSocket.executionId := eid |};
        UseExecutionWebSocket.channel :=
          (exec (notifyExecutionComplete data;; disconnect) ch).1 |},
     UseExecutionWebSocket.forward
       (UseExecutionWebSocket.onExecutionComplete options)
       (λ g, CallExecutionComplete g data))).
  { cbn [UseExecutionWebSocket.happen UseExecutionWebSocket.channel
         UseExecutionWebSocket.hook]. rewrite Hstep.
    destruct ch as [w i c n r ks ts]. cbn in Hc. subst c.
    clear Hstep Hq Hen.
    destruct r, w; run_methods;
      destruct (UseExecutionWebSocket.onExecutionComplete options); reflexivity. }
  rewrite Hhook. cbn [fst snd UseExecutionWebSocket.hook UseExecutionWebSocket.channel].
  split; [reflexivity|]. split; [reflexivity|]. split.
  - destruct Hq as [Hw _]. unfold ExecutionWebSocket.isConnected. by rewrite Hw.
  - by apply happenAll_quiet.
Qed.

(** X21.  The hook's [connect(id)] starts afresh: steps, result and error
    are emptied, the id is stored and the hook's closures become the
    channel's callbacks.  The status becomes 'connecting' when a socket is
    constructed, 'error' (with the failed-to-establish message as the
    error) when the constructor throws, and stays what it was when the id
    is empty. *)
Theorem hook_connect_starts_afresh
    (sys : UseExecutionWebSocket.System) (eid : string) :
  let h := UseExecutionWebSocket.hook
             (happen (UseExecutionWebSocket.HookConnect eid) sys).1 in
  let ch := UseExecutionWebSocket.channel
              (happen (UseExecutionWebSocket.HookConnect eid) sys).1 in
  UseExecutionWebSocket.steps h = [] ∧
  UseExecutionWebSocket.result h = None ∧
  UseExecutionWebSocket.executionId h = Some eid ∧
  callbacks ch = UseExecutionWebSocket.closures ∧
  (eid = "" →
   UseExecutionWebSocket.status h =
     UseExecutionWebSocket.status (UseExecutionWebSocket.hook sys) ∧
   UseExecutionWebSocket.error h = None) ∧
  (eid ≠ "" → WebSocket_throws (WS_URL +:+ EXECUTION_WS eid) = false →
   UseExecutionWebSocket.status h = connecting ∧
   UseExecutionWebSocket.error h = None) ∧
  (eid ≠ "" → WebSocket_throws (WS_URL +:+ EXECUTION_WS eid) = true →
   UseExecutionWebSocket.status h = ExecutionWebSocket.error ∧
   UseExecutionWebSocket.error h =
     Some (JStr "Failed to establish WebSocket connection")).
Proof.
  destruct sys as [[st sts res err i0] [w i c n r ks ts]]. cbv zeta.
  cbn [UseExecutionWebSocket.happen UseExecutionWebSocket.channel
       UseExecutionWebSocket.hook].
  cbv [ExecutionWebSocket.connect establishConnection notifyConnectionChange
       notifyError newWebSocket exec mbind M_bind mret M_ret get modify emit
       set_ws set_executionId set_callbacks set_reconnectAttempts set_sockets
       executionId callbacks onConnectionChange onError sockets truthyId
       UseExecutionWebSocket.closures default from_option id fst snd].
  destruct (String.eqb_spec eid "") as [->|Hne]; cbv [negb].
  - cbn. repeat split; intros; congruence.
  - destruct (WebSocket_throws (WS_URL +:+ EXECUTION_WS eid)); cbn;
      repeat split; intros; congruence.
Qed.

End HookFacts.

Lemma hook_collects_steps_in_order_witness :
  UseExecutionWebSocket.steps (UseExecutionWebSocket.hook
    (UseExecutionWebSocket.happenAll localhost accepts watcher
       (map (λ m, UseExecutionWebSocket.Delivered (SocketMessage 0 (Some m)))
            [frame "step_complete" "exec-42" (stepPayload 1);
             frame "step_complete" "exec-42" (stepPayload 2)])
       watching).1) =
  [stepPayload 1; stepPayload 2].
Proof.
  rewrite (hook_collects_steps_in_order localhost accepts watcher watching 0
             [frame "step_complete" "exec-42" (stepPayload 1);
              frame "step_complete" "exec-42" (stepPayload 2)]
             eq_refl eq_refl ltac:(repeat constructor)).
  reflexivity.
Defined.

Lemma hook_keeps_its_status_after_completion_witness :
  UseExecutionWebSocket.isConnected (UseExecutionWebSocket.hook
    (UseExecutionWebSocket.happenAll localhost accepts watcher
       (map UseExecutionWebSocket.Delivered [SocketClose 0])
       (UseExecutionWebSocket.happen localhost accepts watcher
          (UseExecutionWebSocket.Delivered
             (SocketMessage 0 (Some (frame "execution_complete" "exec-42" (JObj ∅)))))
          watching).1).1) = true ∧
  UseExecutionWebSocket.result (UseExecutionWebSocket.hook
    (UseExecutionWebSocket.happen localhost accepts watcher
       (UseExecutionWebSocket.Delivered
          (SocketMessage 0 (Some (frame "execution_complete" "exec-42" (JObj ∅)))))
       watching).1) = Some (JObj ∅).
Proof.
  destruct (hook_keeps_its_status_after_completion localhost accepts watcher
              watching 0 (frame "execution_complete" "exec-42" (JObj ∅)) (JObj ∅)
              [SocketClose 0] eq_refl eq_refl eq_refl eq_refl eq_refl)
    as (Hh & _ & _ & Hlater & _).
  split.
  - rewrite Hlater, Hh. reflexivity.
  - rewrite Hh. reflexivity.
Defined.

Lemma hook_connect_starts_afresh_witness :
  UseExecutionWebSocket.status (UseExecutionWebSocket.hook
    (UseExecutionWebSocket.happen localhost accepts watcher
       (UseExecutionWebSocket.HookConnect "exec-43") watching).1) = connecting ∧
  UseExecutionWebSocket.status (UseExecutionWebSocket.hook
    (UseExecutionWebSocket.happen localhost accepts watcher
       (UseExecutionWebSocket.HookConnect "") watching).1) = connected ∧
  UseExecutionWebSocket.status (UseExecutionWebSocket.hook
    (UseExecutionWebSocket.happen localhost rejects watcher
       (UseExecutionWebSocket.HookConnect "exec-43") watching).1) =
    ExecutionWebSocket.error.
Proof.
  assert (Hne : "exec-43" ≠ "") by discriminate.
  destruct (hook_connect_starts_afresh localhost accepts watcher watching "exec-43")
    as (_ & _ & _ & _ & _ & Hok & _).
  destruct (hook_connect_starts_afresh localhost accepts watcher watching "")
    as (_ & _ & _ & _ & Hempty & _).
  destruct (hook_connect_starts_afresh localhost rejects watcher watching "exec-43")
    as (_ & _ & _ & _ & _ & _ & Hthrow).
  split; [exact (proj1 (Hok Hne eq_refl))|].
  split; [rewrite (proj1 (Hempty eq_refl)); reflexivity|].
  exact (proj1 (Hthrow Hne eq_refl)).
Defined.
